(** * PyCompiler: the self-extracting packager of [pycclinux.c] and
    [bootandbuild.c]

    A shallow embedding of the two C sources: the footer codec
    ([write_u64_le], [read_u64_le], the "PYBND" magic), the builder
    ([build_pyc_with_python], [append_payload_to_stub], [builder_mode]),
    the launcher ([run_appended_payload]) and [main].  The two files are the
    same program but for the end of the launcher and a [chmod]; one
    definition with a [variant] stands for both, and [bootandbuild.c] is
    read as compiled without [_WIN32].

    The C library is modelled by explicit state passing over a [world]:
    the file system, the process environment, the two output streams, a log
    of the reads, and the outcome of every library call still to come, so
    that each error branch of the sources can be taken.  Every [fwrite]
    is taken to reach its file at once: what a buffered stream would lose
    at a later flush or at [fclose] (whose value the sources drop) is a
    short count of the [fwrite] here, and [fclose] does nothing.  C
    integers are [Z] with their wrap-around written out ([uint64_t], and
    [long] of an LP64 target).

    The embedded Python runtime is a parameter, a [runtime]: what
    [marshal.loads], [exec] and [py_compile.compile] do is not part of
    this program.  The code that the launcher hands to it is foreign code:
    it can change the world, raise, end the process or never end, and the
    launcher and [main] are followed through each of these. *)

From Stdlib Require Import ZArith Lia List Bool.
From Stdlib Require Import Strings.String Strings.Byte.
From stdpp Require Import base option list strings gmap pretty.

Import ListNotations.
Local Open Scope Z_scope.

(* ===================================================================== *)
(** ** Bytes and C integer types *)

Abbreviation byte := Byte.byte.

#[global] Instance byte_eq_decision : EqDecision byte := Byte.byte_eq_dec.

(** [(unsigned char) z]: keeps the low eight bits. *)
Definition byte_of_Z (z : Z) : byte :=
  default Byte.x00 (Byte.of_N (Z.to_N (z mod 256))).

(** Integer promotion of an [unsigned char]. *)
Definition Z_of_byte (b : byte) : Z := Z.of_N (Byte.to_N b).

(** [(uint64_t) z] *)
Definition u64 (z : Z) : Z := z mod 2 ^ 64.

(** [(long) z] on an LP64 target: two's complement, 64 bits.  A signed
    overflow in [long] arithmetic is given the same wrapped value. *)
Definition long (z : Z) : Z := (z + 2 ^ 63) mod 2 ^ 64 - 2 ^ 63.

(* ===================================================================== *)
(** ** The footer: "PYBND" and a little-endian [uint64_t] *)

Definition FOOTER_MAGIC : list byte := list_byte_of_string "PYBND".
Definition FOOTER_MAGIC_LEN : nat := 5.
Definition FOOTER_LEN : nat := 5 + 8.

(** The loop of [write_u64_le]:
    [buf[i] = (unsigned char)((v >> (8 * i)) & 0xFF)] for [i = 0 .. 7]. *)
Definition u64_le_buf (v : Z) : list byte :=
  map (fun i : nat => byte_of_Z (Z.land (Z.shiftr v (8 * Z.of_nat i)) 255))
      (seq 0 8).

(** The loop of [read_u64_le]:
    [v |= ((uint64_t)buf[i]) << (8 * i)] for [i = 0 .. 7], from [v = 0]. *)
Definition u64_of_buf (buf : list byte) : Z :=
  fold_left
    (fun (v : Z) (i : nat) =>
       Z.lor v (u64 (Z.shiftl (Z_of_byte (nth i buf Byte.x00)) (8 * Z.of_nat i))))
    (seq 0 8) 0.

(** [memcmp(a, b, n) == 0] on buffers holding [n] bytes each. *)
Definition memcmp_eq (a b : list byte) : bool := bool_decide (a = b).

(** The thirteen bytes that [append_payload_to_stub] puts last:
    [fwrite(FOOTER_MAGIC, 1, FOOTER_MAGIC_LEN, f_out)] and then
    [write_u64_le(f_out, payload_size)]. *)
Definition encode (payload_size : Z) : list byte :=
  FOOTER_MAGIC ++ u64_le_buf payload_size.

(** What [run_appended_payload] makes of the last thirteen bytes: the first
    five are compared with the magic, the next eight are combined by
    [read_u64_le]. *)
Definition decode (footer : list byte) : bool * Z :=
  if memcmp_eq (take FOOTER_MAGIC_LEN footer) FOOTER_MAGIC
  then (true, u64_of_buf (take 8 (drop FOOTER_MAGIC_LEN footer)))
  else (false, 0).

(* ===================================================================== *)
(** ** The world of the process and the C library *)

(** How a library call turns out.  [Bad k]: the call fails; a transfer
    ([fread], [fwrite]) then moves at most [k] items and fewer than it
    would have moved. *)
Inductive outcome : Type :=
| Good
| Bad (k : nat).

Record world : Type := World {
  fs : gmap string (list byte);   (** the regular files, by path *)
  modes : gmap string Z;          (** permission bits set by [chmod] *)
  self_exe : option string;       (** what [/proc/self/exe] links to *)
  TMPDIR : option string;         (** [getenv("TMPDIR")] *)
  pid : Z;                        (** [getpid()] *)
  faults : nat -> outcome;        (** outcome of the [i]-th library call *)
  clock : nat;                    (** library calls made so far *)
  reads : list (string * nat * nat);
                                  (** every [fread]: path, offset, bytes got *)
  stderr : list string;           (** one entry per [fprintf(stderr, ...)] *)
  stdout : list string            (** one entry per [printf] *)
}.

Definition set_fs (m : gmap string (list byte)) (w : world) : world :=
  World m (modes w) (self_exe w) (TMPDIR w) (pid w) (faults w) (clock w)
        (reads w) (stderr w) (stdout w).

Definition set_modes (m : gmap string Z) (w : world) : world :=
  World (fs w) m (self_exe w) (TMPDIR w) (pid w) (faults w) (clock w)
        (reads w) (stderr w) (stdout w).

Definition tick (w : world) : world :=
  World (fs w) (modes w) (self_exe w) (TMPDIR w) (pid w) (faults w)
        (S (clock w)) (reads w) (stderr w) (stdout w).

Definition log_read (p : string) (off got : nat) (w : world) : world :=
  World (fs w) (modes w) (self_exe w) (TMPDIR w) (pid w) (faults w) (clock w)
        (reads w ++ [(p, off, got)]) (stderr w) (stdout w).

(** [fprintf(stderr, ...)]; the final newline is not kept. *)
Definition eprint (line : string) (w : world) : world :=
  World (fs w) (modes w) (self_exe w) (TMPDIR w) (pid w) (faults w) (clock w)
        (reads w) (stderr w ++ [line]) (stdout w).

(** Several lines on the standard error stream. *)
Definition eprints (ls : list string) (w : world) : world :=
  World (fs w) (modes w) (self_exe w) (TMPDIR w) (pid w) (faults w) (clock w)
        (reads w) (stderr w ++ ls) (stdout w).

(** [printf(...)]; the final newline is not kept. *)
Definition print (line : string) (w : world) : world :=
  World (fs w) (modes w) (self_exe w) (TMPDIR w) (pid w) (faults w) (clock w)
        (reads w) (stderr w) (stdout w ++ [line]).

(** The outcome of the library call made now. *)
Definition call (w : world) : outcome * world := (faults w (clock w), tick w).

(** An open stream: the file it is on and the file position. *)
Record FILE : Type := Stream { f_path : string; f_pos : nat }.

(** [fopen(p, "rb")] *)
Definition fopen_rb (p : string) (w : world) : option FILE * world :=
  let '(o, w) := call w in
  match o, fs w !! p with
  | Good, Some _ => (Some (Stream p 0), w)
  | _, _ => (None, w)
  end.

(** [fopen(p, "wb")]: creates the file, or truncates it. *)
Definition fopen_wb (p : string) (w : world) : option FILE * world :=
  let '(o, w) := call w in
  match o with
  | Good => (Some (Stream p 0), set_fs (<[p := []]> (fs w)) w)
  | Bad _ => (None, w)
  end.

Definition contents (p : string) (w : world) : list byte :=
  default [] (fs w !! p).

(** [fseek(f, 0, SEEK_END)]; [None] when it returns nonzero. *)
Definition fseek_end (f : FILE) (w : world) : option FILE * world :=
  let '(o, w) := call w in
  match o with
  | Good => (Some (Stream (f_path f) (length (contents (f_path f) w))), w)
  | Bad _ => (None, w)
  end.

(** [fseek(f, off, SEEK_SET)]; a negative offset is refused. *)
Definition fseek_set (f : FILE) (off : Z) (w : world) : option FILE * world :=
  let '(o, w) := call w in
  match o with
  | Good => if off <? 0 then (None, w)
            else (Some (Stream (f_path f) (Z.to_nat off)), w)
  | Bad _ => (None, w)
  end.

(** [ftell(f)] *)
Definition ftell (f : FILE) : Z := long (Z.of_nat (f_pos f)).

(** [fread(buf, 1, n, f)]: the bytes stored in [buf] (their number is the
    value of the call), and the stream moved past them. *)
Definition fread (n : nat) (f : FILE) (w : world) : list byte * FILE * world :=
  let '(o, w) := call w in
  let avail := take n (drop (f_pos f) (contents (f_path f) w)) in
  let buf := match o with
             | Good => avail
             | Bad k => take (Nat.min k (Nat.pred (length avail))) avail
             end in
  (buf, Stream (f_path f) (f_pos f + length buf),
   log_read (f_path f) (f_pos f) (length buf) w).

(** [fwrite(buf, 1, n, f)] on a stream that is only ever appended to: the
    number of bytes written is the value of the call.  Streams are not
    buffered. *)
Definition fwrite (buf : list byte) (f : FILE) (w : world) : nat * world :=
  let '(o, w) := call w in
  let done := match o with
              | Good => buf
              | Bad k => take (Nat.min k (Nat.pred (length buf))) buf
              end in
  (length done, set_fs (<[f_path f := contents (f_path f) w ++ done]> (fs w)) w).

(** [remove(p)]; the sources never look at its value. *)
Definition remove (p : string) (w : world) : world :=
  let '(o, w) := call w in
  match o with
  | Good => set_fs (delete p (fs w)) w
  | Bad _ => w
  end.

(** [chmod(p, m)]; the source does not look at its value. *)
Definition chmod (p : string) (m : Z) (w : world) : world :=
  let '(o, w) := call w in
  match o, fs w !! p with
  | Good, Some _ => set_modes (<[p := m]> (modes w)) w
  | _, _ => w
  end.

(** [snprintf(buf, size, ...)]: at most [size - 1] characters are kept. *)
Definition snprintf (size : nat) (s : string) : string :=
  String.substring 0 (Nat.pred size) s.

Definition PATH_MAX : nat := 4096.

(** A text given line by line, every line ended by a newline. *)
Definition nl : string := String (Ascii.ascii_of_nat 10) EmptyString.

Definition lines (ls : list string) : string :=
  fold_right (fun l rest => l +:+ nl +:+ rest) EmptyString ls.

(** The characters that stand for themselves between the single quotes of
    a Python string literal: printable ASCII but the quote and the
    backslash. *)
Definition plain_char (c : Ascii.ascii) : bool :=
  let n := Ascii.nat_of_ascii c in
  (32 <=? n)%nat && (n <? 127)%nat && negb (n =? 39)%nat && negb (n =? 92)%nat.

Fixpoint plain (s : string) : bool :=
  match s with
  | EmptyString => true
  | String c s => plain_char c && plain s
  end.

(** [write_u64_le(f, v)]: the value of its [fwrite] is dropped. *)
Definition write_u64_le (f : FILE) (v : Z) (w : world) : world :=
  snd (fwrite (u64_le_buf v) f w).

(** [read_u64_le(f)]: [0] when [fread] does not deliver eight bytes. *)
Definition read_u64_le (f : FILE) (w : world) : Z * FILE * world :=
  let '(buf, f, w) := fread 8 f w in
  if negb (length buf =? 8)%nat then (0, f, w)
  else (u64_of_buf buf, f, w).

(** [get_self_path(out, out_size)] with [out_size = 4096]:
    [readlink("/proc/self/exe", out, out_size - 1)], refused when it
    returns [n <= 0]. *)
Definition get_self_path (w : world) : option string :=
  match self_exe w with
  | None => None
  | Some p => if bool_decide (p = "") then None
              else Some (String.substring 0 4095 p)
  end.

(* ===================================================================== *)
(** ** Exit statuses *)

(** One constructor for each [return] of a nonzero value, named after the
    failure it reports. *)
Inductive failure : Type :=
| SelfPath        (** [run_appended_payload]: [get_self_path] failed *)
| OpenSelf        (** the self binary cannot be opened *)
| SeekEnd         (** [fseek(f, 0, SEEK_END)] failed *)
| TooSmall        (** [endpos < (long)FOOTER_LEN] *)
| SeekFooter      (** the seek to the footer failed *)
| ReadMagic       (** fewer than five magic bytes were read *)
| NoPayload       (** the magic does not match *)
| ZeroSize        (** [payload_size == 0] *)
| BadStart        (** [payload_start < 0] *)
| SeekPayload     (** the seek to the payload failed *)
| TmpCreate       (** the scratch file cannot be created *)
| OpenPyc         (** [bootandbuild.c] only: the scratch file cannot be reopened *)
| ExecFailed      (** the embedded code did not run to its end *)
| BuildSelfPath   (** [builder_mode]: [get_self_path] failed *)
| CompileSetup    (** [build_pyc_with_python] left at [ret = 1] *)
| CompileFailed   (** [build_pyc_with_python]: [ret = 2] *)
| AppendFailed    (** [append_payload_to_stub]: [rc = 1] *)
| Usage.          (** [main]: [--build] with [argc < 4] *)

#[global] Instance failure_eq_decision : EqDecision failure.
Proof. solve_decision. Defined.

(** The integer each of them returns. *)
Definition exit_code (e : failure) : Z :=
  match e with
  | SelfPath => 1
  | OpenSelf => 2
  | SeekEnd => 3
  | TooSmall => 4
  | SeekFooter => 5
  | ReadMagic => 6
  | NoPayload => 7
  | ZeroSize => 8
  | BadStart => 9
  | SeekPayload => 10
  | TmpCreate => 11
  | OpenPyc => 12
  | ExecFailed => 13
  | BuildSelfPath => 1
  | CompileSetup => 1
  | CompileFailed => 2
  | AppendFailed => 1
  | Usage => 1
  end.

Inductive status : Type :=
| Done                      (** [return 0] *)
| Failed (e : failure).

Definition status_code (s : status) : Z :=
  match s with
  | Done => 0
  | Failed e => exit_code e
  end.

(** How a call that goes through the embedded runtime ends. *)
Inductive ending (A : Type) : Type :=
| Returns (a : A)   (** control comes back, with a value *)
| Exits (code : Z)  (** the runtime ends the process: [Py_Exit(code)], for a
                        [SystemExit] that nothing caught *)
| Never.            (** control does not come back: the embedded code does
                        not end, or the process is killed inside the
                        runtime *)

Arguments Returns {A} a.
Arguments Exits {A} code.
Arguments Never {A}.

(** The exit status of the process, when [main] leaves one. *)
Definition exit_status (e : ending status) : option Z :=
  match e with
  | Returns s => Some (status_code s)
  | Exits code => Some code
  | Never => None
  end.

(** The two sources. *)
Inductive variant : Type :=
| Linux       (** [pycclinux.c] *)
| Portable.   (** [bootandbuild.c], compiled without [_WIN32] *)

(* ===================================================================== *)
(** ** The embedded Python runtime *)

(** What becomes of a piece of Python code that the runtime runs. *)
Inductive py_result : Type :=
| Ran                 (** it ran to its end *)
| Raised              (** it raised an exception that [except Exception]
                          catches *)
| RaisedBase          (** it raised one that only a bare [except:] catches,
                          and that is no [SystemExit]: [KeyboardInterrupt],
                          [GeneratorExit] *)
| SysExit (code : Z)  (** it raised [SystemExit]; [code] is the status with
                          which [Py_Exit] ends the process when nothing
                          catches it *)
| Gone.               (** control does not come back from it *)

(** The runtime is a collaborator: what it does with a byte string, with a
    code object or with a program text is not part of this program.  The
    code that it runs is foreign code in the process of the launcher: it
    can do to the world what the process can. *)
Record runtime : Type := Runtime {
  code_obj : Type;
  (** [marshal.loads]; [None] when it raises (an [Exception]) *)
  marshal_loads : list byte -> option code_obj;
  (** [exec(code_obj)] *)
  exec : code_obj -> world -> py_result * world;
  (** a program text that is not the one that [py_code_str] is meant to
      hold *)
  other_text : string -> world -> py_result * world;
  (** the lines that [PyErr_Print()] writes for the pending exception *)
  traceback : world -> list string;
  (** [Py_FinalizeEx()] after foreign code: its exit handlers, the flush of
      its streams *)
  Py_FinalizeEx : world -> world;
  (** [PyImport_ExecCodeModule("embedded_runner", py_src)] of
      [bootandbuild.c], where [py_src] is a [str] and no code object: the
      API does not say what that does; [true]: a value that is not [NULL] *)
  PyImport_ExecCodeModule : world -> ending bool * world;
  (** [py_compile.compile] on the text of a script: the bytes of the
      [.pyc]; [None] when the text does not compile *)
  py_compile : list byte -> option (list byte)
}.

(* ===================================================================== *)
(** ** Builder and launcher *)

Section Packager.

Variable py : runtime.

(** [PyErr_Print()]: the runtime writes its report of the pending exception
    on the standard error stream. *)
Definition PyErr_Print (w : world) : world := eprints (traceback py w) w.

(** [build_pyc_with_python(script_path, out_pyc_path)].  Two calls can fail
    whatever the script is: [PyImport_Import], which leaves [ret = 1], and
    [PyObject_Call] of [py_compile.compile(script, cfile=out, doraise=True)],
    which leaves [ret = 2]; the latter raises as well when the script is
    missing or does not compile.  Both failures are reported by
    [PyErr_Print].  The runtime has run no foreign code here: its
    [Py_Initialize] and [Py_FinalizeEx] are taken to leave the world
    alone. *)
Definition build_pyc_with_python (script_path out_pyc_path : string)
    (w : world) : status * world :=
  let '(o, w) := call w in
  match o with
  | Bad _ => (Failed CompileSetup, PyErr_Print w)
  | Good =>
      let '(o, w) := call w in
      match o, fs w !! script_path with
      | Good, Some src =>
          match py_compile py src with
          | None => (Failed CompileFailed, PyErr_Print w)
          | Some pyc => (Done, set_fs (<[out_pyc_path := pyc]> (fs w)) w)
          end
      | _, _ => (Failed CompileFailed, PyErr_Print w)
      end
  end.

(** The two copy loops of [append_payload_to_stub]:
    [while ((n = fread(buf, 1, sizeof(buf), f_in)) > 0)] with
    [sizeof(buf) = 8192].  [count] is [payload_size]; the first loop keeps
    no count.  [None]: an [fwrite] came back short. *)
Fixpoint copy_loop (fuel : nat) (f_in f_out : FILE) (count : Z) (w : world)
    : option Z * world :=
  match fuel with
  | O => (Some count, w)
  | S fuel =>
      let '(buf, f_in, w) := fread (Z.to_nat 8192) f_in w in
      if (length buf =? 0)%nat then (Some count, w)
      else
        let count := u64 (count + Z.of_nat (length buf)) in
        let '(n, w) := fwrite buf f_out w in
        if negb (n =? length buf)%nat then (None, w)
        else copy_loop fuel f_in f_out count w
  end.

(** Iterations that a loop reading [f] to its end cannot exceed. *)
Definition rest_of (f : FILE) (w : world) : nat :=
  S (length (contents (f_path f) w) - f_pos f).

(** [append_payload_to_stub(stub_exe, payload_pyc, out_exe)]; [chmod] is in
    [pycclinux.c] only. *)
Definition append_payload_to_stub (v : variant)
    (stub_exe payload_pyc out_exe : string) (w : world) : status * world :=
  match fopen_rb stub_exe w with
  | (None, w) =>
      (Failed AppendFailed, eprint ("Failed to open stub: " +:+ stub_exe) w)
  | (Some f_stub, w) =>
  match fopen_rb payload_pyc w with
  | (None, w) =>
      (Failed AppendFailed, eprint ("Failed to open payload: " +:+ payload_pyc) w)
  | (Some f_payload, w) =>
  match fopen_wb out_exe w with
  | (None, w) =>
      (Failed AppendFailed, eprint ("Failed to create output exe: " +:+ out_exe) w)
  | (Some f_out, w) =>
  match copy_loop (rest_of f_stub w) f_stub f_out 0 w with
  | (None, w) => (Failed AppendFailed, eprint "Write error" w)
  | (Some _, w) =>
  match copy_loop (rest_of f_payload w) f_payload f_out 0 w with
  | (None, w) => (Failed AppendFailed, eprint "Write error" w)
  | (Some payload_size, w) =>
      let '(n, w) := fwrite FOOTER_MAGIC f_out w in
      if negb (n =? FOOTER_MAGIC_LEN)%nat
      then (Failed AppendFailed, eprint "Footer write failed" w)
      else
        let w := write_u64_le f_out payload_size w in
        (Done, match v with
               | Linux => chmod out_exe 493 w     (* 0755 *)
               | Portable => w
               end)
  end end end end end.

(** The scratch directory: [getenv("TMPDIR")], or ["/tmp"]. *)
Definition tmp_dir (w : world) : string := default "/tmp" (TMPDIR w).

(** [builder_mode(script_path, out_exe_path)] *)
Definition builder_mode (v : variant) (script_path out_exe_path : string)
    (w : world) : status * world :=
  match get_self_path w with
  | None => (Failed BuildSelfPath, eprint "Cannot get self path for stub copy" w)
  | Some selfpath =>
      let temp_pyc :=
        snprintf 4096 (tmp_dir w +:+ "/temp_build_payload_" +:+ pretty (pid w)
                       +:+ ".pyc") in
      let w := print ("[*] Compiling " +:+ script_path +:+ " -> " +:+ temp_pyc) w in
      match build_pyc_with_python script_path temp_pyc w with
      | (Failed e, w) =>
          (Failed e,
           eprint ("[!] py_compile failed (code " +:+ pretty (exit_code e) +:+ ")") w)
      | (Done, w) =>
          let w := print ("[*] Appending payload to stub and creating "
                          +:+ out_exe_path) w in
          match append_payload_to_stub v selfpath temp_pyc out_exe_path w with
          | (Failed e, w) =>
              let w := eprint "[!] Failed to append payload" w in
              (Failed e, remove temp_pyc w)
          | (Done, w) =>
              let w := remove temp_pyc w in
              (Done, print ("[+] Built " +:+ out_exe_path +:+ " successfully") w)
          end
      end
  end.

(** The scratch file of the launcher:
    [snprintf(tmpname, sizeof(tmpname), "%s/embedded_payload_%ld.pyc", td, (long)getpid())]. *)
Definition scratch_path (w : world) : string :=
  snprintf PATH_MAX (tmp_dir w +:+ "/embedded_payload_" +:+ pretty (pid w)
                     +:+ ".pyc").

(** The extraction loop of [run_appended_payload], with [sizeof(buf) = 4096]:
    it ends when [remaining] reaches zero or [fread] delivers nothing; the
    value of [fwrite] is dropped. *)
Fixpoint extract_loop (fuel : nat) (f fp : FILE) (remaining : Z) (w : world)
    : world :=
  match fuel with
  | O => w
  | S fuel =>
      if remaining <=? 0 then w
      else
        let toread := Z.to_nat (Z.min remaining 4096) in
        let '(buf, f, w) := fread toread f w in
        if (length buf =? 0)%nat then w
        else
          let '(_, w) := fwrite buf fp w in
          extract_loop fuel f fp (u64 (remaining - Z.of_nat (length buf))) w
  end.

(** The first part of [run_appended_payload()], from [get_self_path] to the
    two [fclose] after the extraction loop.  [inl]: the launcher has
    returned; [inr]: the name of the scratch file, and the world in which
    the runtime is started. *)
Definition extract_payload (v : variant) (w : world)
    : status * world + string * world :=
  match get_self_path w with
  | None => inl (Failed SelfPath, eprint "Failed to get self path" w)
  | Some selfpath =>
  match fopen_rb selfpath w with
  | (None, w) => inl (Failed OpenSelf, eprint "Failed to open self binary" w)
  | (Some f, w) =>
  match fseek_end f w with
  | (None, w) => inl (Failed SeekEnd, w)
  | (Some f, w) =>
  let endpos := ftell f in
  if endpos <? Z.of_nat FOOTER_LEN then inl (Failed TooSmall, w) else
  match fseek_set f (endpos - Z.of_nat FOOTER_LEN) w with
  | (None, w) => inl (Failed SeekFooter, w)
  | (Some f, w) =>
  let '(magic, f, w) := fread FOOTER_MAGIC_LEN f w in
  if negb (length magic =? FOOTER_MAGIC_LEN)%nat then inl (Failed ReadMagic, w) else
  if negb (memcmp_eq magic FOOTER_MAGIC)
  then inl (Failed NoPayload,
            eprint match v with
                   | Linux => "No embedded payload found in binary"
                   | Portable => "No embedded payload found in exe"
                   end w)
  else
  let '(payload_size, f, w) := read_u64_le f w in
  if payload_size =? 0
  then inl (Failed ZeroSize, eprint "Embedded payload size is zero" w) else
  let payload_start := long (endpos - Z.of_nat FOOTER_LEN - long payload_size) in
  if payload_start <? 0
  then inl (Failed BadStart, eprint "Invalid payload start" w) else
  match fseek_set f payload_start w with
  | (None, w) => inl (Failed SeekPayload, w)
  | (Some f, w) =>
  let tmpname := scratch_path w in
  match fopen_wb tmpname w with
  | (None, w) => inl (Failed TmpCreate, eprint "Failed to create temp pyc" w)
  | (Some fp, w) =>
      inr (tmpname, extract_loop (rest_of f w) f fp payload_size w)
  end end end end end end.

(** One attempt of the Python text of [pycclinux.c]:
    [code_obj = marshal.loads(data[k:])] and [exec(code_obj)]. *)
Definition load_and_exec (k : nat) (data : list byte) (w : world)
    : py_result * world :=
  match marshal_loads py (drop k data) with
  | Some code => exec py code w
  | None => (Raised, w)
  end.

(** The [try] statement of that text, once [data] is read: the attempt at
    16; when it raises an [Exception], the attempt at 12; when that raises
    anything at all, the attempt at 8. *)
Definition try_offsets (data : list byte) (w : world) : py_result * world :=
  match load_and_exec 16 data w with
  | (Raised, w) =>
      match load_and_exec 12 data w with
      | (Ran, w) => (Ran, w)
      | (Gone, w) => (Gone, w)
      | (_, w) => load_and_exec 8 data w
      end
  | (r, w) => (r, w)
  end.

(** The text that [snprintf] is given for [py_code_str], with [tmpname] in
    the place of [%s]. *)
Definition py_code_text (tmpname : string) : string :=
  lines
    ["import marshal";
     "with open('" +:+ tmpname +:+ "', 'rb') as f:";
     "    data = f.read()";
     "# Python 3.7+ has 16-byte header for hash-based pyc";
     "# Try to extract code object from pyc";
     "try:";
     "    # Skip header (typically 16 bytes in Python 3.7+)";
     "    code_obj = marshal.loads(data[16:])";
     "    exec(code_obj)";
     "except Exception as e:";
     "    # If that fails, try other header sizes";
     "    try:";
     "        code_obj = marshal.loads(data[12:])";
     "        exec(code_obj)";
     "    except:";
     "        code_obj = marshal.loads(data[8:])";
     "        exec(code_obj)"].

(** [py_code_str] after [snprintf(py_code_str, sizeof(py_code_str), ...)]. *)
Definition py_code_str (tmpname : string) : string :=
  snprintf 2048 (py_code_text tmpname).

(** The text says what it is meant to say when [snprintf] has not cut it
    and the path stands for itself between the quotes. *)
Definition well_quoted (tmpname : string) : bool :=
  plain tmpname && (String.length (py_code_text tmpname) <? 2048)%nat.

(** [PyRun_SimpleString(py_code_str)] of [pycclinux.c]: [0], or [-1] after
    [PyErr_Print] when the text raises; a [SystemExit] that the text does
    not catch ends the process.  The text opens and reads the scratch file
    (a call that can fail like any other) and goes through its [try]
    statement. *)
Definition PyRun_SimpleString (tmpname : string) (w : world)
    : ending Z * world :=
  let '(r, w) :=
    if well_quoted tmpname then
      let '(o, w) := call w in
      match o, fs w !! tmpname with
      | Good, Some data => try_offsets data w
      | _, _ => (Raised, w)
      end
    else other_text py (py_code_str tmpname) w in
  match r with
  | Ran => (Returns 0, w)
  | Raised | RaisedBase => (Returns (-1), PyErr_Print w)
  | SysExit code => (Exits code, Py_FinalizeEx py w)
  | Gone => (Never, w)
  end.

(** The second part of [run_appended_payload()], from [Py_Initialize()]
    on.  [pycclinux.c] runs its Python text and removes the scratch file
    when the runtime hands control back.  [bootandbuild.c] reopens the
    scratch file, hands a [str] to [PyImport_ExecCodeModule] and has its
    [remove] commented out. *)
Definition execute_payload (v : variant) (tmpname : string) (w : world)
    : ending status * world :=
  match v with
  | Linux =>
      match PyRun_SimpleString tmpname w with
      | (Returns result, w) =>
          if negb (result =? 0)
          then
            let w := eprint "Failed to execute embedded Python code" w in
            let w := Py_FinalizeEx py w in
            (Returns (Failed ExecFailed), remove tmpname w)
          else
            let w := Py_FinalizeEx py w in
            (Returns Done, remove tmpname w)
      | (Exits code, w) => (Exits code, w)
      | (Never, w) => (Never, w)
      end
  | Portable =>
      match fopen_rb tmpname w with
      | (None, w) =>
          let w := eprint "Failed to open extracted pyc" w in
          (Returns (Failed OpenPyc), Py_FinalizeEx py w)
      | (Some _, w) =>
          match PyImport_ExecCodeModule py w with
          | (Returns false, w) =>
              let w := PyErr_Print w in
              (Returns (Failed ExecFailed), Py_FinalizeEx py w)
          | (Returns true, w) => (Returns Done, Py_FinalizeEx py w)
          | (Exits code, w) => (Exits code, w)
          | (Never, w) => (Never, w)
          end
      end
  end.

(** [run_appended_payload()] *)
Definition run_appended_payload (v : variant) (w : world)
    : ending status * world :=
  match extract_payload v w with
  | inl (r, w) => (Returns r, w)
  | inr (tmpname, w) => execute_payload v tmpname w
  end.

Definition usage_text (v : variant) (argv0 : string) : string :=
  match v with
  | Linux => argv0 +:+ " --build <script.py> <out_binary>"
  | Portable => argv0 +:+ " --build <script.py> <out.exe>"
  end.

(** [main(argc, argv)], with [argc = length argv]. *)
Definition main (v : variant) (argv : list string) (w : world)
    : ending status * world :=
  let argc := length argv in
  if (2 <=? argc)%nat && bool_decide (nth 1 argv "" = "--build") then
    if (argc <? 4)%nat
    then (Returns (Failed Usage),
          eprint ("Usage: " +:+ usage_text v (nth 0 argv "")) w)
    else
      let '(r, w) := builder_mode v (nth 2 argv "") (nth 3 argv "") w in
      (Returns r, w)
  else
    match run_appended_payload v w with
    | (Returns r, w) =>
        if negb (status_code r =? 0)
        then
          let w := eprint ("Bootloader: no embedded payload or run failed (code "
                           +:+ pretty (status_code r) +:+ ")") w in
          (Returns r, eprint ("Usage to build: " +:+ usage_text v (nth 0 argv "")) w)
        else (Returns r, w)
    | (Exits code, w) => (Exits code, w)
    | (Never, w) => (Never, w)
    end.

End Packager.

(* ===================================================================== *)
(** ** Vocabulary of the statements *)

(** The next [k] library calls all succeed. *)
Definition calm (k : nat) (w : world) : Prop :=
  forall i : nat, (clock w <= i < clock w + k)%nat -> faults w i = Good.

(** No library call fails from now on. *)
Definition serene (w : world) : Prop :=
  forall i : nat, (clock w <= i)%nat -> faults w i = Good.

(** The last thirteen bytes of a file. *)
Definition footer_of (data : list byte) : list byte :=
  drop (length data - FOOTER_LEN) data.

(** The part of the world that names the scratch file. *)
Definition env_of (w : world) : option string * Z := (TMPDIR w, pid w).

(* --------------------------------------------------------------------- *)
(** *** Sample files *)

Definition stub_bytes : list byte := list_byte_of_string "#!stub:launcher+builder".

Definition script_bytes : list byte := list_byte_of_string "print(1)".

(** The compiled script: a header of sixteen bytes, then the code unit. *)
Definition payload_bytes : list byte :=
  repeat Byte.x00 16 ++ Byte.xe3 :: script_bytes.

(** What a build from [stub_bytes] and [payload_bytes] is to look like. *)
Definition built : list byte :=
  stub_bytes ++ payload_bytes ++ encode (Z.of_nat (length payload_bytes)).

(** A stub followed by a footer whose size field is [2^64 - 1]. *)
Definition huge_claim : list byte :=
  stub_bytes ++ FOOTER_MAGIC ++ repeat Byte.xff 8.

(** A stub whose footer has one byte of the magic changed. *)
Definition flipped_magic : list byte :=
  stub_bytes ++ <[4%nat := Byte.x45]> FOOTER_MAGIC ++ u64_le_buf 25.

(** A payload whose code raises when it is run. *)
Definition raising_payload : list byte :=
  repeat Byte.x00 16 ++ [Byte.xe3; Byte.xff].


(* --------------------------------------------------------------------- *)
(** *** Sample worlds *)

(** A world in which no library call ever fails. *)
Definition quiet (files : gmap string (list byte)) (self : option string)
    : world :=
  World files ∅ self None 4242 (fun _ => Good) 0 [] [] [].

(** A world like [quiet files self], but whose [n]-th library call is [Bad k]. *)
Definition faulty (n k : nat) (files : gmap string (list byte))
    (self : option string) : world :=
  World files ∅ self None 4242
        (fun i => if (i =? n)%nat then Bad k else Good) 0 [] [] [].

(** Where the samples are installed, and the world that runs one of them. *)
Definition app : string := "/bin/app".

Definition installed (data : list byte) : world :=
  quiet {[ app := data ]} (Some app).


(** The sources of a build, and the command line that builds ["out"]. *)
Definition sources : gmap string (list byte) :=
  {[ app := stub_bytes; "s.py" := script_bytes ]}.

Definition build_out : list string := [app; "--build"; "s.py"; "out"].

(* --------------------------------------------------------------------- *)
(** *** A stand-in for the Python runtime *)

(** For the concrete runs: a code unit is a byte string that starts with the
    marshal type code of a code object ([0xe3]); running it raises an
    [Exception] when its second byte is [0xff], raises [SystemExit(42)] when
    it is [0xfe], and changes nothing in the world; compiling a script that
    is not empty puts a sixteen-byte header and the type code in front of
    it.  Any other program text is a syntax error, [Py_FinalizeEx] changes
    nothing, and [PyImport_ExecCodeModule] on a [str] kills the process. *)
Module Toy.

Definition marshal_loads (d : list byte) : option (list byte) :=
  match d with
  | Byte.xe3 :: _ => Some d
  | _ => None
  end.

Definition exec (code : list byte) (w : world) : py_result * world :=
  match code with
  | _ :: Byte.xff :: _ => (Raised, w)
  | _ :: Byte.xfe :: _ => (SysExit 42, w)
  | _ => (Ran, w)
  end.

Definition py_compile (src : list byte) : option (list byte) :=
  match src with
  | [] => None
  | _ => Some (repeat Byte.x00 16 ++ Byte.xe3 :: src)
  end.

Definition py : runtime :=
  Runtime (list byte) marshal_loads exec
          (fun _ w => (Raised, w))
          (fun _ => ["Traceback (most recent call last):"])
          (fun w => w)
          (fun w => (Never, w))
          py_compile.

Definition main := main py.
Definition builder_mode := builder_mode py.
Definition run_appended_payload := run_appended_payload py.
Definition execute_payload := execute_payload py.
Definition PyRun_SimpleString := PyRun_SimpleString py.
Definition try_offsets := try_offsets py.
Definition load_and_exec := load_and_exec py.

End Toy.

(* --------------------------------------------------------------------- *)
(** *** Failure kinds *)

(** The failure kinds that the specification lists: self-path resolution,
    unreadable self binary, file too small, unreadable footer, absent
    payload, zero-length payload, corrupt footer, scratch-file creation,
    compile failure, append or write failure, execution failure, usage
    error; each with the [return] that reports it. *)
Definition listed_failures : list failure :=
  [SelfPath; OpenSelf; TooSmall; ReadMagic; NoPayload; ZeroSize; BadStart;
   TmpCreate; CompileFailed; AppendFailed; ExecFailed; Usage].

(** The failures that [run_appended_payload] can return. *)
Definition launcher_failures : list failure :=
  [SelfPath; OpenSelf; SeekEnd; TooSmall; SeekFooter; ReadMagic; NoPayload;
   ZeroSize; BadStart; SeekPayload; TmpCreate; OpenPyc; ExecFailed].

(** A command line and a world in which [main] ends in a given failure. *)
Definition provoke (e : failure) : variant * list string * world :=
  match e with
  | SelfPath => (Linux, [app], quiet {[ app := built ]} None)
  | OpenSelf => (Linux, [app], quiet ∅ (Some app))
  | SeekEnd => (Linux, [app], faulty 1 0 {[ app := built ]} (Some app))
  | TooSmall => (Linux, [app], installed (list_byte_of_string "tiny"))
  | SeekFooter => (Linux, [app], faulty 2 0 {[ app := built ]} (Some app))
  | ReadMagic => (Linux, [app], faulty 3 0 {[ app := built ]} (Some app))
  | NoPayload => (Linux, [app], installed stub_bytes)
  | ZeroSize => (Linux, [app], installed (stub_bytes ++ encode 0))
  | BadStart => (Linux, [app], installed (encode 25))
  | SeekPayload => (Linux, [app], faulty 5 0 {[ app := built ]} (Some app))
  | TmpCreate => (Linux, [app], faulty 6 0 {[ app := built ]} (Some app))
  | OpenPyc => (Portable, [app], faulty 9 0 {[ app := built ]} (Some app))
  | ExecFailed =>
      (Linux, [app],
       installed (stub_bytes ++ raising_payload
                  ++ encode (Z.of_nat (length raising_payload))))
  | BuildSelfPath => (Linux, build_out, quiet sources None)
  | CompileSetup => (Linux, build_out, faulty 0 0 sources (Some app))
  | CompileFailed => (Linux, build_out, installed stub_bytes)
  | AppendFailed => (Linux, build_out, faulty 2 0 sources (Some app))
  | Usage => (Linux, [app; "--build"; "s.py"], installed stub_bytes)
  end.

(* --------------------------------------------------------------------- *)
(** *** Files that a run leaves alone *)

(** Every file outside [keep] is in [w'] what it was in [w]. *)
Definition same_files_but (keep : list string) (w w' : world) : Prop :=
  forall q : string, q ∉ keep -> fs w' !! q = fs w !! q.

(** The runtime leaves alone every file outside [keep], whatever it runs or
    finalizes. *)
Definition runtime_keeps (py : runtime) (keep : list string) : Prop :=
  (forall (c : code_obj py) (w : world), same_files_but keep w (snd (exec py c w)))
  /\ (forall (t : string) (w : world),
        same_files_but keep w (snd (other_text py t w)))
  /\ (forall w : world, same_files_but keep w (Py_FinalizeEx py w))
  /\ (forall w : world,
        same_files_but keep w (snd (PyImport_ExecCodeModule py w))).

(** The runtime changes the mode of no file. *)
Definition runtime_keeps_modes (py : runtime) : Prop :=
  (forall (c : code_obj py) (w : world), modes (snd (exec py c w)) = modes w)
  /\ (forall (t : string) (w : world),
        modes (snd (other_text py t w)) = modes w)
  /\ (forall w : world, modes (Py_FinalizeEx py w) = modes w)
  /\ (forall w : world,
        modes (snd (PyImport_ExecCodeModule py w)) = modes w).

(** The failures that [builder_mode] can return. *)
Definition builder_failures : list failure :=
  [BuildSelfPath; CompileSetup; CompileFailed; AppendFailed].

(** [temp_pyc] of [builder_mode]:
    [snprintf(temp_pyc, sizeof(temp_pyc), "%s/temp_build_payload_%ld.pyc", td, (long)getpid())]. *)
Definition temp_pyc_path (w : world) : string :=
  snprintf 4096 (tmp_dir w +:+ "/temp_build_payload_" +:+ pretty (pid w)
                 +:+ ".pyc").

(** [main] takes the builder: [argc >= 2 && strcmp(argv[1], "--build") == 0]. *)
Definition build_requested (argv : list string) : bool :=
  (2 <=? length argv)%nat && bool_decide (nth 1 argv "" = "--build").


(** The launcher got as far as the embedded code: the scratch file was
    created and filled, and the runtime was started. *)
Definition reached_extraction (st : ending status) : Prop :=
  st = Returns Done \/ st = Returns (Failed ExecFailed)
  \/ st = Returns (Failed OpenPyc)
  \/ (exists code : Z, st = Exits code) \/ st = Never.


(* ===================================================================== *)
(** * Properties *)

(* --------------------------------------------------------------------- *)
(** *** Bit-level facts about the codec *)

Lemma Z_of_byte_range (b : byte) : 0 <= Z_of_byte b < 256.
Proof.
  unfold Z_of_byte. pose proof (Byte.to_N_bounded b) as H. lia.
Qed.

Lemma Z_of_byte_of_Z (z : Z) : Z_of_byte (byte_of_Z z) = z mod 256.
Proof.
  unfold Z_of_byte, byte_of_Z.
  assert (Hr : 0 <= z mod 256 < 256) by (apply Z.mod_pos_bound; lia).
  destruct (Byte.of_N (Z.to_N (z mod 256))) as [b|] eqn:E.
  - apply Byte.to_of_N in E. simpl. rewrite E. lia.
  - apply Byte.of_N_None_iff in E. lia.
Qed.

Lemma byte_of_Z_of_byte (b : byte) : byte_of_Z (Z_of_byte b) = b.
Proof.
  unfold byte_of_Z. pose proof (Z_of_byte_range b) as Hr.
  rewrite Z.mod_small by lia. unfold Z_of_byte.
  rewrite N2Z.id, Byte.of_to_N. reflexivity.
Qed.

(** Bit [n] of the [i]-th term that [read_u64_le] ors in, when the buffer
    was filled by [write_u64_le]. *)
Lemma le_term_testbit (v : Z) (i : nat) (n : Z) :
  (i < 8)%nat -> 0 <= n ->
  Z.testbit
    (u64 (Z.shiftl (Z_of_byte (byte_of_Z (Z.land (Z.shiftr v (8 * Z.of_nat i)) 255)))
                   (8 * Z.of_nat i))) n
  = Z.testbit v n && (8 * Z.of_nat i <=? n) && (n <? 8 * Z.of_nat i + 8).
Proof.
  intros Hi Hn. unfold u64.
  rewrite Z_of_byte_of_Z.
  change 256 with (2 ^ 8). change 255 with (Z.ones 8).
  rewrite Z.land_ones by lia.
  rewrite Z.mod_mod by lia.
  destruct (Z.ltb_spec n 64) as [Hlt|Hge].
  - rewrite Z.mod_pow2_bits_low by lia.
    destruct (Z.leb_spec (8 * Z.of_nat i) n) as [Hle|Hgt].
    + rewrite Z.shiftl_spec by lia.
      destruct (Z.ltb_spec n (8 * Z.of_nat i + 8)) as [Hin|Hout].
      * rewrite Z.mod_pow2_bits_low by lia.
        rewrite Z.shiftr_spec by lia.
        replace (n - 8 * Z.of_nat i + 8 * Z.of_nat i) with n by lia.
        now rewrite !andb_true_r.
      * rewrite Z.mod_pow2_bits_high by lia. now rewrite andb_false_r.
    + rewrite Z.shiftl_spec_low by lia. now rewrite andb_false_r.
  - rewrite Z.mod_pow2_bits_high by lia.
    destruct (Z.ltb_spec n (8 * Z.of_nat i + 8)); [lia|].
    now rewrite andb_false_r.
Qed.

(** Decides every comparison of the goal that [lia] can settle. *)
Ltac settle_comparisons :=
  repeat match goal with
         | |- context [?a <=? ?b] =>
             first [ rewrite (proj2 (Z.leb_le a b)) by lia
                   | rewrite (proj2 (Z.leb_gt a b)) by lia ]
         | |- context [?a <? ?b] =>
             first [ rewrite (proj2 (Z.ltb_lt a b)) by lia
                   | rewrite (proj2 (Z.ltb_ge a b)) by lia ]
         end.

Lemma u64_of_buf_le_buf (v : Z) : u64_of_buf (u64_le_buf v) = u64 v.
Proof.
  unfold u64_of_buf, u64_le_buf. cbn [seq map fold_left nth].
  apply Z.bits_inj'. intros n Hn.
  rewrite !Z.lor_spec, Z.bits_0, orb_false_l.
  rewrite !le_term_testbit by lia.
  unfold u64. cbn [Z.of_nat Pos.of_succ_nat Pos.succ Z.mul Pos.mul Pos.add Z.add].
  destruct (Z.ltb_spec n 64) as [Hlt|Hge].
  - rewrite Z.mod_pow2_bits_low by lia.
    destruct (Z.testbit v n); [|reflexivity]. cbn [andb].
    assert (Hcase : n < 8 \/ 8 <= n < 16 \/ 16 <= n < 24 \/ 24 <= n < 32 \/
                    32 <= n < 40 \/ 40 <= n < 48 \/ 48 <= n < 56 \/ 56 <= n)
      by lia.
    destruct Hcase as [H|[H|[H|[H|[H|[H|[H|H]]]]]]];
      settle_comparisons; reflexivity.
  - rewrite Z.mod_pow2_bits_high by lia.
    settle_comparisons. now rewrite !andb_false_r.
Qed.

Lemma u64_le_buf_length (v : Z) : length (u64_le_buf v) = 8%nat.
Proof. reflexivity. Qed.


(** Writes the two powers of two as numerals, for [lia]. *)
Ltac numerals :=
  change (2 ^ 63) with 9223372036854775808 in *;
  change (2 ^ 64) with 18446744073709551616 in *.

Lemma u64_small (z : Z) : 0 <= z < 18446744073709551616 -> u64 z = z.
Proof. intros H. unfold u64. numerals. now apply Z.mod_small. Qed.

Lemma long_small (z : Z) :
  - 9223372036854775808 <= z < 9223372036854775808 -> long z = z.
Proof. intros H. unfold long. numerals. rewrite Z.mod_small; lia. Qed.

Lemma memcmp_eq_true (a b : list byte) : memcmp_eq a b = true <-> a = b.
Proof. unfold memcmp_eq. apply bool_decide_eq_true. Qed.

Lemma decode_encode (n : Z) : decode (encode n) = (true, u64 n).
Proof.
  unfold decode, encode.
  rewrite take_app_length' by reflexivity.
  rewrite drop_app_length' by reflexivity.
  rewrite firstn_all2 by (rewrite u64_le_buf_length; lia).
  rewrite u64_of_buf_le_buf.
  now rewrite (proj2 (memcmp_eq_true _ _) eq_refl).
Qed.

(** C1. The footer is read back as it was written: for every [n] from [1] to
    [2^64 - 1], decoding the thirteen bytes [encode n] (the magic "PYBND",
    then [n] as eight little-endian bytes) finds the magic and gives [n]. *)
Theorem footer_symmetry (n : Z) :
  1 <= n <= 2 ^ 64 - 1 -> decode (encode n) = (true, n).
Proof.
  intros Hn. rewrite decode_encode. numerals. now rewrite u64_small by lia.
Qed.

Lemma footer_symmetry_witness :
  1 <= 258 <= 2 ^ 64 - 1 /\ decode (encode 258) = (true, 258).
Proof. split; [lia | apply (footer_symmetry 258); lia]. Defined.

(* --------------------------------------------------------------------- *)
(** ** Library calls that succeed *)

Lemma calm_now (k : nat) (w : world) : calm (S k) w -> faults w (clock w) = Good.
Proof. intros H. apply H. lia. Qed.

Lemma calm_tick (k : nat) (w : world) : calm (S k) w -> calm k (tick w).
Proof. intros H i Hi. cbn in *. apply H. lia. Qed.

Lemma calm_quiet (k : nat) (files : gmap string (list byte))
    (self : option string) : calm k (quiet files self).
Proof. intros i _. reflexivity. Qed.

Lemma fopen_rb_good (p : string) (d : list byte) (w : world) :
  faults w (clock w) = Good -> fs w !! p = Some d ->
  fopen_rb p w = (Some (Stream p 0), tick w).
Proof. intros Ho Hd. unfold fopen_rb, call. rewrite Ho. cbn. now rewrite Hd. Qed.

Lemma fopen_wb_good (p : string) (w : world) :
  faults w (clock w) = Good ->
  fopen_wb p w = (Some (Stream p 0), set_fs (<[p := []]> (fs w)) (tick w)).
Proof. intros Ho. unfold fopen_wb, call. now rewrite Ho. Qed.

Lemma fseek_end_good (f : FILE) (w : world) :
  faults w (clock w) = Good ->
  fseek_end f w
  = (Some (Stream (f_path f) (length (contents (f_path f) w))), tick w).
Proof. intros Ho. unfold fseek_end, call. now rewrite Ho. Qed.

Lemma fseek_set_good (f : FILE) (off : Z) (w : world) :
  faults w (clock w) = Good -> 0 <= off ->
  fseek_set f off w = (Some (Stream (f_path f) (Z.to_nat off)), tick w).
Proof.
  intros Ho Hoff. unfold fseek_set, call. rewrite Ho.
  now rewrite (proj2 (Z.ltb_ge off 0)) by lia.
Qed.

Lemma fread_good (n : nat) (f : FILE) (w : world) :
  faults w (clock w) = Good ->
  fread n f w
  = (take n (drop (f_pos f) (contents (f_path f) w)),
     Stream (f_path f)
            (f_pos f + length (take n (drop (f_pos f) (contents (f_path f) w)))),
     log_read (f_path f) (f_pos f)
              (length (take n (drop (f_pos f) (contents (f_path f) w)))) (tick w)).
Proof. intros Ho. unfold fread, call. now rewrite Ho. Qed.

Lemma fwrite_good (buf : list byte) (f : FILE) (w : world) :
  faults w (clock w) = Good ->
  fwrite buf f w
  = (length buf,
     set_fs (<[f_path f := contents (f_path f) w ++ buf]> (fs w)) (tick w)).
Proof. intros Ho. unfold fwrite, call. now rewrite Ho. Qed.

Lemma contents_of (p : string) (d : list byte) (w : world) :
  fs w !! p = Some d -> contents p w = d.
Proof. intros H. unfold contents. now rewrite H. Qed.

Lemma contents_tick (p : string) (w : world) :
  contents p (tick w) = contents p w.
Proof. reflexivity. Qed.

Lemma contents_log_read (p q : string) (a b : nat) (w : world) :
  contents p (log_read q a b w) = contents p w.
Proof. reflexivity. Qed.

Lemma contents_eprint (p s : string) (w : world) :
  contents p (eprint s w) = contents p w.
Proof. reflexivity. Qed.

Lemma contents_set_fs (p : string) (m : gmap string (list byte)) (w : world) :
  contents p (set_fs m w) = default [] (m !! p).
Proof. reflexivity. Qed.

Create Rewrite HintDb world.
#[global] Hint Rewrite contents_tick contents_log_read contents_eprint
  contents_set_fs : world.

Lemma footer_magic_length (data : list byte) :
  (13 <= length data)%nat ->
  length (take 5 (drop (length data - 13) data)) = 5%nat.
Proof. intros H. rewrite length_take, length_drop. lia. Qed.

(** The launcher up to the comparison of the magic: the self binary is
    opened, measured, and the first five of its last thirteen bytes are
    read. *)
Ltac launch_to_footer Hself Hfile Hcalm :=
  unfold run_appended_payload, extract_payload; rewrite Hself;
  erewrite fopen_rb_good by (first [apply Hcalm; cbn; lia | exact Hfile]);
  rewrite fseek_end_good by (apply Hcalm; cbn; lia);
  cbn [f_path f_pos]; autorewrite with world;
  rewrite (contents_of _ _ _ Hfile);
  unfold ftell; cbn [f_pos]; unfold FOOTER_LEN, FOOTER_MAGIC_LEN in *;
  change (5 + 8)%nat with 13%nat in *;
  numerals;
  rewrite long_small by lia;
  rewrite (proj2 (Z.ltb_ge _ _)) by lia;
  rewrite fseek_set_good by (first [apply Hcalm; cbn; lia | lia]);
  rewrite fread_good by (apply Hcalm; cbn; lia);
  cbn [f_path f_pos]; autorewrite with world;
  rewrite (contents_of _ _ _ Hfile);
  match goal with
  | |- context [Z.to_nat (Z.of_nat (length ?d) - Z.of_nat 13)] =>
      replace (Z.to_nat (Z.of_nat (length d) - Z.of_nat 13))
        with (length d - 13)%nat by lia
  end;
  rewrite footer_magic_length by lia; cbn [Nat.eqb negb].

Lemma fread_bad_short (n : nat) (f : FILE) (w : world) (k : nat) :
  faults w (clock w) = Bad k -> (0 < n)%nat ->
  (length (fst (fst (fread n f w))) < n)%nat.
Proof.
  intros Ho Hn. unfold fread, call. rewrite Ho. cbn [fst].
  rewrite !length_take. lia.
Qed.

Lemma read_u64_le_bad (f : FILE) (w : world) (k : nat) :
  faults w (clock w) = Bad k -> fst (fst (read_u64_le f w)) = 0.
Proof.
  intros Ho. unfold read_u64_le.
  pose proof (fread_bad_short 8 f w k Ho ltac:(lia)) as Hshort.
  destruct (fread 8 f w) as [[buf f'] w']. cbn [fst] in *.
  destruct (Nat.eqb_spec (length buf) 8) as [E|E]; [lia|]. reflexivity.
Qed.

Lemma read_u64_le_stderr (f : FILE) (w : world) :
  stderr (snd (read_u64_le f w)) = stderr w.
Proof.
  unfold read_u64_le, fread, call.
  destruct (negb _); reflexivity.
Qed.

Lemma read_u64_le_good (f : FILE) (w : world) :
  faults w (clock w) = Good ->
  (f_pos f + 8 <= length (contents (f_path f) w))%nat ->
  read_u64_le f w
  = (u64_of_buf (take 8 (drop (f_pos f) (contents (f_path f) w))),
     Stream (f_path f) (f_pos f + 8),
     log_read (f_path f) (f_pos f) 8 (tick w)).
Proof.
  intros Ho Hlen. unfold read_u64_le. rewrite fread_good by done.
  assert (E : length (take 8 (drop (f_pos f) (contents (f_path f) w))) = 8%nat)
    by (rewrite length_take, length_drop; lia).
  rewrite E. reflexivity.
Qed.


Lemma decode_footer_of (data : list byte) :
  (13 <= length data)%nat ->
  decode (footer_of data)
  = if memcmp_eq (take 5 (drop (length data - 13) data)) FOOTER_MAGIC
    then (true, u64_of_buf (take 8 (drop (length data - 13 + 5) data)))
    else (false, 0).
Proof.
  intros H. unfold decode, footer_of, FOOTER_LEN, FOOTER_MAGIC_LEN.
  change (5 + 8)%nat with 13%nat. rewrite drop_drop. reflexivity.
Qed.

Lemma decode_true (data : list byte) (s : Z) :
  (13 <= length data)%nat ->
  decode (footer_of data) = (true, s) ->
  take 5 (drop (length data - 13) data) = FOOTER_MAGIC
  /\ u64_of_buf (take 8 (drop (length data - 13 + 5) data)) = s.
Proof.
  intros H. rewrite decode_footer_of by done.
  destruct (memcmp_eq _ _) eqn:E; [|discriminate].
  apply memcmp_eq_true in E. intros [= <-]. now split.
Qed.

(** The launcher up to the test of [payload_size]: after a matching magic
    the size field is read whole. *)
Ltac launch_to_size Hself Hfile Hcalm Hmagic :=
  launch_to_footer Hself Hfile Hcalm;
  rewrite Hmagic; rewrite (proj2 (memcmp_eq_true _ _) eq_refl); cbn [negb];
  rewrite read_u64_le_good
    by (first [ apply Hcalm; cbn; lia
              | cbn [f_path f_pos]; autorewrite with world;
                rewrite (contents_of _ _ _ Hfile); lia ]);
  cbn [f_path f_pos]; autorewrite with world;
  rewrite (contents_of _ _ _ Hfile).

(* --------------------------------------------------------------------- *)
(** ** What the library calls leave alone *)

Lemma scratch_path_env (w w' : world) :
  env_of w' = env_of w -> scratch_path w' = scratch_path w.
Proof.
  unfold env_of, scratch_path, tmp_dir. intros [= -> ->]. reflexivity.
Qed.

Lemma env_fopen_rb (p : string) (w : world) :
  env_of (snd (fopen_rb p w)) = env_of w.
Proof. unfold fopen_rb, call. repeat case_match; reflexivity. Qed.

Lemma env_fseek_end (f : FILE) (w : world) :
  env_of (snd (fseek_end f w)) = env_of w.
Proof. unfold fseek_end, call. repeat case_match; reflexivity. Qed.

Lemma env_fseek_set (f : FILE) (off : Z) (w : world) :
  env_of (snd (fseek_set f off w)) = env_of w.
Proof. unfold fseek_set, call. repeat case_match; reflexivity. Qed.

Lemma env_fread (n : nat) (f : FILE) (w : world) :
  env_of (snd (fread n f w)) = env_of w.
Proof. reflexivity. Qed.

Lemma env_read_u64_le (f : FILE) (w : world) :
  env_of (snd (read_u64_le f w)) = env_of w.
Proof. unfold read_u64_le, fread, call. repeat case_match; reflexivity. Qed.

(** Rewrites the world of a finished call back to the world it started in,
    inside [env_of]. *)
Ltac env_back :=
  repeat match goal with
         | H : fopen_rb ?p ?w = (_, ?w') |- context [env_of ?w'] =>
             replace (env_of w') with (env_of w)
               by (rewrite <- (env_fopen_rb p w), H; reflexivity)
         | H : fseek_end ?f ?w = (_, ?w') |- context [env_of ?w'] =>
             replace (env_of w') with (env_of w)
               by (rewrite <- (env_fseek_end f w), H; reflexivity)
         | H : fseek_set ?f ?o ?w = (_, ?w') |- context [env_of ?w'] =>
             replace (env_of w') with (env_of w)
               by (rewrite <- (env_fseek_set f o w), H; reflexivity)
         | H : fread ?n ?f ?w = (_, ?w') |- context [env_of ?w'] =>
             replace (env_of w') with (env_of w)
               by (rewrite <- (env_fread n f w), H; reflexivity)
         | H : read_u64_le ?f ?w = (_, ?w') |- context [env_of ?w'] =>
             replace (env_of w') with (env_of w)
               by (rewrite <- (env_read_u64_le f w), H; reflexivity)
         end.

Lemma fopen_rb_some (p : string) (w w' : world) (f : FILE) :
  fopen_rb p w = (Some f, w') -> is_Some (fs w' !! p).
Proof.
  unfold fopen_rb, call. repeat case_match; intros; simplify_eq.
  cbn [fs tick] in *. eauto.
Qed.

Section Launcher_facts.

Variable py : runtime.

Abbreviation run := (run_appended_payload py).
Abbreviation python := (PyRun_SimpleString py).
Abbreviation attempt := (load_and_exec py).

(** The second part of the launcher returns none of the failures of the
    first. *)
Lemma execute_payload_reached (v : variant) (tmpname : string) (w : world) :
  reached_extraction (fst (execute_payload py v tmpname w)).
Proof.
  unfold execute_payload, PyRun_SimpleString, reached_extraction.
  repeat case_match; cbn [fst]; eauto 6.
Qed.

(** C3. A self binary shorter than the thirteen bytes of a footer is turned
    down as too small: once it is opened and its size is known, the launcher
    returns its code 4, which no other failure returns, and has read
    nothing from the file. *)
Theorem too_small_rejected (v : variant) (w : world) (p : string)
    (data : list byte) :
  get_self_path w = Some p ->
  fs w !! p = Some data ->
  (length data < FOOTER_LEN)%nat ->
  calm 2 w ->
  run v w = (Returns (Failed TooSmall), tick (tick w))
  /\ reads (snd (run v w)) = reads w
  /\ exit_code TooSmall = 4
  /\ (forall e, exit_code e = 4 -> e = TooSmall).
Proof.
  intros Hself Hfile Hlen Hcalm.
  assert (Hrun : run v w = (Returns (Failed TooSmall), tick (tick w))).
  { unfold run_appended_payload, extract_payload. rewrite Hself.
    rewrite (fopen_rb_good p data) by (eauto using calm_now).
    rewrite fseek_end_good by (apply Hcalm; cbn; lia).
    cbn [f_path]. autorewrite with world. rewrite (contents_of p data) by done.
    unfold ftell. cbn [f_pos]. unfold FOOTER_LEN in *.
    rewrite long_small by lia.
    now rewrite (proj2 (Z.ltb_lt _ _)) by lia. }
  rewrite Hrun. repeat split.
  intros e He. destruct e; cbn in He; congruence.
Qed.

(** C4. A self binary whose last thirteen bytes do not start with "PYBND" is
    reported as carrying no payload: the launcher says so on the diagnostic
    stream and returns its code 7, which no other failure returns. *)
Theorem no_payload_reported (v : variant) (w : world) (p : string)
    (data : list byte) :
  get_self_path w = Some p ->
  fs w !! p = Some data ->
  (FOOTER_LEN <= length data)%nat ->
  Z.of_nat (length data) < 2 ^ 63 ->
  calm 4 w ->
  take FOOTER_MAGIC_LEN (footer_of data) <> FOOTER_MAGIC ->
  fst (run v w) = Returns (Failed NoPayload)
  /\ stderr (snd (run v w))
     = stderr w ++ [match v with
                    | Linux => "No embedded payload found in binary"
                    | Portable => "No embedded payload found in exe"
                    end]
  /\ exit_code NoPayload = 7
  /\ (forall e, exit_code e = 7 -> e = NoPayload).
Proof.
  intros Hself Hfile Hlen Hrep Hcalm Hmagic. unfold footer_of in Hmagic.
  assert (Hrun : exists w', run v w = (Returns (Failed NoPayload), w') /\
            stderr w' = stderr w ++ [match v with
                    | Linux => "No embedded payload found in binary"
                    | Portable => "No embedded payload found in exe"
                    end]).
  { launch_to_footer Hself Hfile Hcalm.
    destruct (memcmp_eq _ FOOTER_MAGIC) eqn:E.
    - apply memcmp_eq_true in E. contradiction.
    - cbn [negb]. eexists. split; [reflexivity|]. reflexivity. }
  destruct Hrun as (w' & -> & Herr). cbn [fst snd].
  repeat split; [exact Herr|].
  intros e He. destruct e; cbn in He; congruence.
Qed.

(** C10. With a valid magic, a size field of which [fread] does not deliver
    all eight bytes is taken to be zero: [read_u64_le] returns [0] whenever
    its read fails, and the launcher leaves by the zero-length payload path,
    with its message and its code 8, not by the code 6 of a footer that
    cannot be read. *)
Theorem truncated_size_reported_as_zero (v : variant) (w : world)
    (p : string) (data : list byte) (k : nat) :
  get_self_path w = Some p ->
  fs w !! p = Some data ->
  (FOOTER_LEN <= length data)%nat ->
  Z.of_nat (length data) < 2 ^ 63 ->
  calm 4 w ->
  faults w (clock w + 4)%nat = Bad k ->
  take FOOTER_MAGIC_LEN (footer_of data) = FOOTER_MAGIC ->
  (forall (f : FILE) (w0 : world),
     faults w0 (clock w0) = Bad k -> fst (fst (read_u64_le f w0)) = 0)
  /\ fst (run v w) = Returns (Failed ZeroSize)
  /\ stderr (snd (run v w)) = stderr w ++ ["Embedded payload size is zero"]
  /\ exit_code ZeroSize = 8
  /\ exit_code ZeroSize <> exit_code ReadMagic.
Proof.
  intros Hself Hfile Hlen Hrep Hcalm Hbad Hmagic. unfold footer_of in Hmagic.
  assert (Hrun : exists w', run v w = (Returns (Failed ZeroSize), w') /\
            stderr w' = stderr w ++ ["Embedded payload size is zero"]).
  { launch_to_footer Hself Hfile Hcalm.
    rewrite Hmagic. rewrite (proj2 (memcmp_eq_true _ _) eq_refl). cbn [negb].
    match goal with
    | |- context [read_u64_le ?f ?w0] =>
        pose proof (read_u64_le_bad f w0 k) as Hzero;
        pose proof (read_u64_le_stderr f w0) as Herr;
        destruct (read_u64_le f w0) as [[sz f'] w'] eqn:E
    end.
    cbn [fst snd] in Hzero, Herr.
    rewrite Hzero.
    - cbn [Z.eqb]. eexists. split; [reflexivity|].
      cbn [stderr eprint]. rewrite Herr. reflexivity.
    - cbn [faults clock tick log_read].
      replace (S (S (S (S (clock w))))) with (clock w + 4)%nat by lia.
      exact Hbad. }
  destruct Hrun as (w' & -> & Herr). cbn [fst snd].
  split; [intros f w0 H0; exact (read_u64_le_bad f w0 k H0)|].
  repeat split; [exact Herr | discriminate].
Qed.

(** A footer whose size field is zero is turned down, whatever precedes it. *)
Lemma zero_size_rejected (v : variant) (w : world) (p : string)
    (data : list byte) :
  get_self_path w = Some p ->
  fs w !! p = Some data ->
  (FOOTER_LEN <= length data)%nat ->
  Z.of_nat (length data) < 2 ^ 63 ->
  calm 5 w ->
  decode (footer_of data) = (true, 0) ->
  fst (run v w) = Returns (Failed ZeroSize).
Proof.
  intros Hself Hfile Hlen Hrep Hcalm Hdec.
  apply decode_true in Hdec; [|exact Hlen]. destruct Hdec as [Hmagic Hsize].
  launch_to_size Hself Hfile Hcalm Hmagic.
  rewrite Hsize. reflexivity.
Qed.

(** A size field that claims more than the bytes in front of the footer is
    turned down as long as it is below [2^63]: the launcher returns by
    [payload_start < 0], having read the thirteen footer bytes and nothing
    else, and having written nothing. *)
Lemma negative_span_rejected (v : variant) (w : world) (p : string)
    (data : list byte) (s : Z) :
  get_self_path w = Some p ->
  fs w !! p = Some data ->
  (FOOTER_LEN <= length data)%nat ->
  Z.of_nat (length data) < 2 ^ 63 ->
  calm 5 w ->
  decode (footer_of data) = (true, s) ->
  Z.of_nat (length data) - Z.of_nat FOOTER_LEN < s < 2 ^ 63 ->
  fst (run v w) = Returns (Failed BadStart)
  /\ reads (snd (run v w))
     = reads w ++ [(p, length data - 13, 5); (p, length data - 13 + 5, 8)]%nat
  /\ fs (snd (run v w)) = fs w.
Proof.
  intros Hself Hfile Hlen Hrep Hcalm Hdec Hs.
  apply decode_true in Hdec; [|exact Hlen]. destruct Hdec as [Hmagic Hsize].
  assert (Hrun : exists w', run v w = (Returns (Failed BadStart), w') /\
            reads w' = reads w ++ [(p, length data - 13, 5);
                                   (p, length data - 13 + 5, 8)]%nat /\
            fs w' = fs w).
  { launch_to_size Hself Hfile Hcalm Hmagic.
    rewrite Hsize.
    rewrite (proj2 (Z.eqb_neq s 0)) by lia.
    rewrite (long_small s) by lia.
    rewrite long_small by lia.
    rewrite (proj2 (Z.ltb_lt _ _)) by lia.
    eexists. split; [reflexivity|]. cbn. split; [|reflexivity].
    now rewrite <- app_assoc. }
  destruct Hrun as (w' & -> & Hreads & Hfs). now repeat split.
Qed.

(** With the top bit of the size field set, [(long)payload_size] is
    negative and [payload_start] comes out positive: such a footer is not
    turned down as corrupt, however little precedes it. *)
Lemma negative_span_missed (v : variant) (w : world) (p : string)
    (data : list byte) (s : Z) :
  get_self_path w = Some p ->
  fs w !! p = Some data ->
  (FOOTER_LEN <= length data)%nat ->
  Z.of_nat (length data) < 2 ^ 63 ->
  calm 5 w ->
  decode (footer_of data) = (true, s) ->
  2 ^ 63 + Z.of_nat (length data) - Z.of_nat FOOTER_LEN < s < 2 ^ 64 ->
  fst (run v w) <> Returns (Failed BadStart).
Proof.
  intros Hself Hfile Hlen Hrep Hcalm Hdec Hs.
  apply decode_true in Hdec; [|exact Hlen]. destruct Hdec as [Hmagic Hsize].
  launch_to_size Hself Hfile Hcalm Hmagic.
  rewrite Hsize.
  rewrite (proj2 (Z.eqb_neq s 0)) by lia.
  assert (Hlong : long s = s - 18446744073709551616).
  { unfold long. numerals.
    replace (s + 9223372036854775808)
      with (s - 9223372036854775808 + 1 * 18446744073709551616) by lia.
    rewrite Z.mod_add by lia. rewrite Z.mod_small by lia. lia. }
  rewrite Hlong.
  rewrite long_small by lia.
  rewrite (proj2 (Z.ltb_ge _ _)) by lia.
  destruct (fseek_set _ _ _) as [[f|] w1]; [|discriminate].
  destruct (fopen_wb _ _) as [[fp|] w2]; [|discriminate].
  match goal with
  | |- context [execute_payload py v ?t ?w3] =>
      pose proof (execute_payload_reached v t w3) as Hst;
      destruct (execute_payload py v t w3) as [st w4]
  end.
  cbn [fst] in *. unfold reached_extraction in Hst.
  destruct Hst as [->|[->|[->|[[c ->]| ->]]]]; discriminate.
Qed.

Lemma fopen_wb_some (p : string) (w w' : world) (f : FILE) :
  fopen_wb p w = (Some f, w') -> f_path f = p /\ is_Some (fs w' !! p).
Proof.
  unfold fopen_wb, call. repeat case_match; intros; simplify_eq.
  cbn [fs set_fs tick f_path]. rewrite lookup_insert_eq. eauto.
Qed.

Lemma fwrite_keeps_file (buf : list byte) (f : FILE) (w : world) :
  is_Some (fs (snd (fwrite buf f w)) !! f_path f).
Proof.
  unfold fwrite, call. cbn [snd fs set_fs tick]. rewrite lookup_insert_eq.
  eauto.
Qed.

Lemma extract_loop_keeps_file (fuel : nat) :
  forall (f fp : FILE) (remaining : Z) (w : world),
    is_Some (fs w !! f_path fp) ->
    is_Some (fs (extract_loop fuel f fp remaining w) !! f_path fp).
Proof.
  induction fuel as [|fuel IH]; intros f fp remaining w Hw; cbn [extract_loop];
    [exact Hw|].
  destruct (remaining <=? 0); [exact Hw|].
  destruct (fread _ f w) as [[buf f'] w1] eqn:E.
  assert (Hw1 : fs w1 = fs w) by (unfold fread, call in E; now simplify_eq).
  destruct (length buf =? 0)%nat; [now rewrite Hw1|].
  pose proof (fwrite_keeps_file buf fp w1) as Hk.
  destruct (fwrite buf fp w1) as [n w2]. now apply IH.
Qed.

(** Where the first part of the launcher hands over: the scratch file is
    named after the process, and it is there. *)
Lemma extract_payload_staged (v : variant) (w w0 : world) (tmpname : string) :
  extract_payload v w = inr (tmpname, w0) ->
  tmpname = scratch_path w /\ is_Some (fs w0 !! tmpname).
Proof.
  intros H. unfold extract_payload in H.
  repeat case_match; simplify_eq.
  match goal with
  | Hs : get_self_path ?w0 = _, Ht : fopen_wb (scratch_path ?w5) _ = _ |- _ =>
      assert (Hpath : scratch_path w5 = scratch_path w0)
        by (apply scratch_path_env; env_back; reflexivity);
      rewrite Hpath in *;
      apply fopen_wb_some in Ht; destruct Ht as [Hfp Hthere]
  end.
  split; [reflexivity|].
  rewrite <- Hfp. apply extract_loop_keeps_file. now rewrite Hfp.
Qed.




End Launcher_facts.

(* --------------------------------------------------------------------- *)
(** ** Concrete runs of the launcher *)

Lemma calm_faulty (k n j : nat) (files : gmap string (list byte))
    (self : option string) :
  (k <= n)%nat -> calm k (faulty n j files self).
Proof.
  intros Hk i Hi. cbn in *.
  destruct (Nat.eqb_spec i n); [lia | reflexivity].
Qed.

(** Settles a closed goal by evaluating it. *)
Ltac evaluate := vm_compute; first [reflexivity | lia | discriminate].

Lemma too_small_rejected_witness :
  fst (Toy.run_appended_payload Linux (installed (list_byte_of_string "tiny")))
  = Returns (Failed TooSmall).
Proof.
  pose proof (too_small_rejected Toy.py Linux
                (installed (list_byte_of_string "tiny")) app
                (list_byte_of_string "tiny")
                ltac:(evaluate) ltac:(evaluate) ltac:(evaluate)
                (calm_quiet _ _ _)) as [H _].
  unfold Toy.run_appended_payload. rewrite H. reflexivity.
Defined.

(** Changing one byte of the magic gives five bytes that are not the magic. *)
Lemma corrupt_magic (stub tail : list byte) (i : nat) (b : byte) :
  (i < FOOTER_MAGIC_LEN)%nat ->
  FOOTER_MAGIC !! i <> Some b ->
  length tail = 8%nat ->
  take FOOTER_MAGIC_LEN (footer_of (stub ++ <[i := b]> FOOTER_MAGIC ++ tail))
  <> FOOTER_MAGIC.
Proof.
  intros Hi Hb Htail. unfold footer_of.
  rewrite !length_app, length_insert, Htail.
  replace (length stub + (length FOOTER_MAGIC + 8) - FOOTER_LEN)%nat
    with (length stub) by (cbn; lia).
  rewrite drop_app_length.
  rewrite take_app_length' by (rewrite length_insert; reflexivity).
  intros Heq. apply Hb. rewrite <- Heq.
  apply list_lookup_insert_eq. exact Hi.
Qed.

Lemma no_payload_reported_witness :
  fst (Toy.run_appended_payload Linux (installed flipped_magic))
  = Returns (Failed NoPayload).
Proof.
  pose proof (no_payload_reported Toy.py Linux
                (installed flipped_magic) app flipped_magic
                ltac:(evaluate) ltac:(evaluate) ltac:(evaluate)
                ltac:(evaluate) (calm_quiet _ _ _)
                (corrupt_magic stub_bytes (u64_le_buf 25) 4 Byte.x45
                   ltac:(evaluate) ltac:(discriminate) ltac:(evaluate)))
    as [H _].
  exact H.
Defined.

Lemma truncated_size_reported_as_zero_witness :
  fst (Toy.run_appended_payload Linux (faulty 4 3 {[ app := built ]} (Some app)))
  = Returns (Failed ZeroSize).
Proof.
  pose proof (truncated_size_reported_as_zero Toy.py Linux
                (faulty 4 3 {[ app := built ]} (Some app)) app built 3
                ltac:(evaluate) ltac:(evaluate) ltac:(evaluate)
                ltac:(evaluate) (calm_faulty 4 4 3 _ _ ltac:(lia))
                ltac:(evaluate) ltac:(evaluate))
    as (_ & H & _).
  exact H.
Defined.

(** C5, at a footer that claims [2^64 - 1] payload bytes behind a stub of
    23 bytes.  The claim is far larger than what precedes the footer, yet
    the launcher does not leave by [payload_start < 0]: [(long)payload_size]
    is [-1], [payload_start] is [endpos - 12], and the launcher copies the
    last twelve bytes of the file, which are footer bytes, to the scratch
    file and gives them to Python. *)
Theorem huge_claim_not_rejected :
  let r := Toy.run_appended_payload Linux (installed huge_claim) in
  decode (footer_of huge_claim) = (true, 2 ^ 64 - 1)
  /\ Z.of_nat (length huge_claim) - Z.of_nat FOOTER_LEN < 2 ^ 64 - 1
  /\ fst r = Returns (Failed ExecFailed)
  /\ fst r <> Returns (Failed BadStart)
  /\ reads (snd r)
     = [(app, 23, 5); (app, 28, 8); (app, 24, 12); (app, 36, 0)]%nat
  /\ stderr (snd r) = ["Traceback (most recent call last):";
                      "Failed to execute embedded Python code"].
Proof. vm_compute. repeat split; discriminate. Qed.


(** The same without the stand-in for [PyImport_ExecCodeModule]: whatever
    the runtime of [bootandbuild.c] does, as long as it leaves the scratch
    file alone, the launcher ends with the file in its place. *)
Lemma portable_never_removes (py : runtime) (w w0 : world) (tmpname : string) :
  extract_payload Portable w = inr (tmpname, w0) ->
  (forall w1 : world, fs (Py_FinalizeEx py w1) !! tmpname = fs w1 !! tmpname) ->
  (forall w1 : world,
     fs (snd (PyImport_ExecCodeModule py w1)) !! tmpname = fs w1 !! tmpname) ->
  is_Some (fs (snd (run_appended_payload py Portable w)) !! tmpname).
Proof.
  intros Hstage Hfin Hrun.
  destruct (extract_payload_staged Portable w w0 tmpname Hstage)
    as [_ Hthere].
  unfold run_appended_payload. rewrite Hstage. unfold execute_payload.
  assert (Hopen : fs (snd (fopen_rb tmpname w0)) = fs w0)
    by (unfold fopen_rb, call; repeat case_match; reflexivity).
  destruct (fopen_rb tmpname w0) as [[f|] w1]; cbn [snd] in Hopen.
  - specialize (Hrun w1).
    destruct (PyImport_ExecCodeModule py w1) as [[[|]| |] w2];
      cbn [snd] in Hrun; cbn zeta; cbn [snd];
      rewrite ?Hfin; cbn [PyErr_Print fs eprints];
      rewrite ?Hrun, Hopen; exact Hthere.
  - cbn zeta. cbn [snd]. rewrite Hfin. cbn [fs eprint]. now rewrite Hopen.
Qed.


(* --------------------------------------------------------------------- *)
(** ** Exit codes and the command line *)

(** Every [return] of a failure is live: [provoke e] makes [main] end in [e],
    and the process exits with [exit_code e]. *)
Lemma every_failure_happens (e : failure) :
  let '(v, argv, w) := provoke e in
  fst (Toy.main v argv w) = Returns (Failed e)
  /\ exit_status (fst (Toy.main v argv w)) = Some (exit_code e).
Proof. destruct e; vm_compute; split; reflexivity. Qed.

(** Among the failure kinds that the specification lists, two that differ
    exit with the same code: a usage error and a failure to resolve the self
    path both exit with 1. *)
Lemma listed_failures_share_codes :
  ~ (forall a b : failure,
       a ∈ listed_failures -> b ∈ listed_failures ->
       exit_code a = exit_code b -> a = b).
Proof.
  intros H.
  assert (E : SelfPath = Usage)
    by (apply H; [set_solver | set_solver | reflexivity]).
  discriminate E.
Qed.

(** C8, as the sources have it.  The failures of the launcher exit with
    thirteen different codes, 1 to 13; every listed failure exits with a
    code from 1 to 13; but the builder and the command line take their codes
    from the same range again: a usage error, a failure of the builder to
    resolve the self path and a failed append all exit with 1, like a
    failure of the launcher to resolve the self path, and a failed
    compilation exits with 2, like an unreadable self binary. *)
Theorem launcher_exit_codes_distinct :
  NoDup (exit_code <$> launcher_failures)
  /\ Forall (fun e => 1 <= exit_code e <= 13) (launcher_failures ++ listed_failures)
  /\ exit_code Usage = exit_code SelfPath
  /\ exit_code BuildSelfPath = exit_code SelfPath
  /\ exit_code AppendFailed = exit_code SelfPath
  /\ exit_code CompileSetup = exit_code SelfPath
  /\ exit_code CompileFailed = exit_code OpenSelf.
Proof.
  split; [|split; [|repeat split]].
  - compute_done.
  - apply Forall_forall. intros e _. destruct e; cbn; lia.
Qed.

Section Main_facts.

Variable py : runtime.

Abbreviation main_ := (main py).

(** C9, as the sources have it.  When the first argument is [--build] and
    fewer than two arguments follow it, [main] returns 1 after printing the
    usage text on the diagnostic stream, and nothing else happens: no
    library call is made, no file is touched. *)
Theorem build_flag_too_few_arguments (v : variant) (argv : list string)
    (w : world) :
  argv !! 1%nat = Some "--build" ->
  (length argv < 4)%nat ->
  main_ v argv w
  = (Returns (Failed Usage),
     eprint ("Usage: " +:+ usage_text v (nth 0 argv "")) w)
  /\ exit_status (fst (main_ v argv w)) = Some 1.
Proof.
  intros Hflag Hlen.
  assert (Hrun : main_ v argv w
            = (Returns (Failed Usage),
               eprint ("Usage: " +:+ usage_text v (nth 0 argv "")) w)).
  { unfold main.
    assert (H2 : (2 <= length argv)%nat)
      by (apply lookup_lt_Some in Hflag; lia).
    rewrite (proj2 (Nat.leb_le _ _) H2).
    rewrite (nth_lookup_Some _ _ _ _ Hflag).
    rewrite (bool_decide_eq_true_2 _ eq_refl). cbn [andb].
    now rewrite (proj2 (Nat.ltb_lt _ _) Hlen). }
  rewrite Hrun. split; reflexivity.
Qed.

End Main_facts.

Lemma build_flag_too_few_arguments_witness :
  Toy.main Linux [app; "--build"; "s.py"] (installed stub_bytes)
  = (Returns (Failed Usage),
     eprint "Usage: /bin/app --build <script.py> <out_binary>"
            (installed stub_bytes)).
Proof.
  exact (proj1 (build_flag_too_few_arguments Toy.py Linux
                  [app; "--build"; "s.py"]
                  (installed stub_bytes) eq_refl ltac:(evaluate))).
Defined.

(** With three arguments behind [--build] instead of two, no usage error is
    raised: the third is ignored, the build runs, the output file is
    written and [main] returns 0. *)
Lemma extra_argument_still_builds :
  let argv := [app; "--build"; "s.py"; "out"; "extra"] in
  let w := quiet sources (Some app) in
  argv !! 1%nat = Some "--build"
  /\ length argv <> 4%nat
  /\ fst (Toy.main Linux argv w) = Returns Done
  /\ exit_status (fst (Toy.main Linux argv w)) <> Some 1
  /\ stderr (snd (Toy.main Linux argv w)) = []
  /\ fs (snd (Toy.main Linux argv w)) !! "out" = Some built.
Proof. vm_compute. repeat split; discriminate. Qed.

(* --------------------------------------------------------------------- *)
(** ** The header of the payload *)



(** The path of the scratch file is pasted into the text unquoted: with a
    quote in [TMPDIR] the text is another text, here one that does not
    parse, and the launcher returns 13 for a payload that is in order. *)
Lemma quote_in_scratch_path :
  let w := World {[ app := built ]} ∅ (Some app) (Some "/tmp/it's") 4242
                 (fun _ => Good) 0 [] [] [] in
  well_quoted (scratch_path w) = false
  /\ fst (Toy.run_appended_payload Linux w) = Returns (Failed ExecFailed).
Proof. vm_compute. split; reflexivity. Qed.


(* --------------------------------------------------------------------- *)
(** ** The builder when no library call fails *)

Lemma serene_now (w : world) : serene w -> faults w (clock w) = Good.
Proof. intros H. apply H. lia. Qed.

Lemma serene_tick (w : world) : serene w -> serene (tick w).
Proof. intros H i Hi. cbn in *. apply H. lia. Qed.

Lemma serene_set_fs (m : gmap string (list byte)) (w : world) :
  serene w -> serene (set_fs m w).
Proof. intros H i Hi. cbn in *. apply H. lia. Qed.

Lemma serene_log_read (p : string) (a b : nat) (w : world) :
  serene w -> serene (log_read p a b w).
Proof. intros H i Hi. cbn in *. apply H. lia. Qed.

Lemma serene_quiet (files : gmap string (list byte)) (self : option string) :
  serene (quiet files self).
Proof. intros i _. reflexivity. Qed.

Lemma u64_add_u64 (a b : Z) : u64 (u64 a + b) = u64 (a + b).
Proof. unfold u64. now rewrite Z.add_mod_idemp_l by lia. Qed.

Lemma take_nil_inv {A : Type} (n : nat) (l : list A) :
  (0 < n)%nat -> take n l = [] -> l = [].
Proof. intros Hn. destruct n, l; cbn; (lia || congruence). Qed.

(** A copy loop that nothing disturbs appends the rest of its input to its
    output and counts the bytes. *)
Lemma copy_loop_good (fuel : nat) :
  forall (f_in f_out : FILE) (count : Z) (w : world) (data old : list byte),
    serene w ->
    f_path f_in <> f_path f_out ->
    fs w !! f_path f_in = Some data ->
    fs w !! f_path f_out = Some old ->
    (length data - f_pos f_in < fuel)%nat ->
    0 <= count < 2 ^ 64 ->
    exists w' : world,
      copy_loop fuel f_in f_out count w
      = (Some (u64 (count + Z.of_nat (length (drop (f_pos f_in) data)))), w')
      /\ serene w'
      /\ fs w' = <[f_path f_out := old ++ drop (f_pos f_in) data]> (fs w).
Proof.
  induction fuel as [|fuel IH]; intros f_in f_out count w data old
    Hser Hne Hin Hout Hfuel Hcount; [lia|].
  cbn [copy_loop].
  rewrite fread_good by (now apply serene_now).
  rewrite (contents_of _ _ _ Hin).
  set (buf := take (Z.to_nat 8192) (drop (f_pos f_in) data)).
  destruct (Nat.eqb_spec (length buf) 0) as [Hzero|Hsome].
  - assert (Hnil : drop (f_pos f_in) data = []).
    { apply (take_nil_inv (Z.to_nat 8192)); [lia|].
      now apply length_zero_iff_nil. }
    rewrite Hnil. cbn [length Z.of_nat]. rewrite Z.add_0_r, app_nil_r.
    eexists. split; [|split].
    + numerals. now rewrite u64_small by lia.
    + now apply serene_log_read, serene_tick.
    + cbn [fs log_read tick]. symmetry. now apply insert_id.
  - rewrite fwrite_good
      by (apply serene_now; now apply serene_log_read, serene_tick).
    rewrite Nat.eqb_refl. cbn [negb].
    autorewrite with world. rewrite (contents_of _ _ _ Hout).
    cbn [fs log_read tick].
    assert (Hbuf : length buf
                   = Nat.min (Z.to_nat 8192) (length data - f_pos f_in))
      by (subst buf; now rewrite length_take, length_drop).
    assert (Hlen : (f_pos f_in + length buf <= length data)%nat) by lia.
    edestruct (IH (Stream (f_path f_in) (f_pos f_in + length buf)) f_out
                 (u64 (count + Z.of_nat (length buf)))
                 (set_fs (<[f_path f_out := old ++ buf]> (fs w))
                    (tick (log_read (f_path f_in) (f_pos f_in) (length buf)
                             (tick w)))) data (old ++ buf))
      as (w' & Hrun & Hser' & Hfs).
    + apply serene_set_fs, serene_tick, serene_log_read, serene_tick, Hser.
    + exact Hne.
    + cbn [fs set_fs f_path]. rewrite lookup_insert_ne by congruence. exact Hin.
    + cbn [fs set_fs]. apply lookup_insert_eq.
    + cbn [f_pos]. lia.
    + unfold u64. apply Z.mod_pos_bound. lia.
    + exists w'. cbn [f_path f_pos] in Hrun, Hfs. split; [|split].
      * rewrite Hrun. f_equal. f_equal. rewrite u64_add_u64.
        f_equal. rewrite <- Z.add_assoc. f_equal.
        rewrite <- Nat2Z.inj_add. f_equal.
        rewrite !length_drop. lia.
      * exact Hser'.
      * rewrite Hfs. cbn [fs set_fs]. rewrite insert_insert_eq.
        f_equal. rewrite <- app_assoc. f_equal.
        rewrite <- drop_drop.
        transitivity (take (length buf) (drop (f_pos f_in) data)
                      ++ drop (length buf) (drop (f_pos f_in) data));
          [|apply take_drop].
        f_equal. subst buf. rewrite length_take.
        destruct (Nat.le_ge_cases (Z.to_nat 8192)
                    (length (drop (f_pos f_in) data))) as [Hle|Hge].
        -- now rewrite Nat.min_l.
        -- rewrite Nat.min_r by exact Hge.
           now rewrite !take_ge by lia.
Qed.

Lemma serene_chmod (p : string) (m : Z) (w : world) :
  serene w -> serene (chmod p m w).
Proof.
  intros H i Hi. unfold chmod, call in *.
  repeat case_match; cbn in *; apply H; lia.
Qed.

Lemma serene_print (s : string) (w : world) : serene w -> serene (print s w).
Proof. intros H i Hi. cbn in *. apply H. lia. Qed.

Lemma fs_chmod (p : string) (m : Z) (w : world) : fs (chmod p m w) = fs w.
Proof. unfold chmod, call. repeat case_match; reflexivity. Qed.

(** A build that nothing disturbs: the output is the stub, then the payload,
    then the footer that encodes the length of the payload; no other file
    changes. *)
Lemma append_undisturbed (v : variant) (stub_exe payload_pyc out_exe : string)
    (w : world) (stub payload : list byte) :
  serene w ->
  stub_exe <> out_exe ->
  payload_pyc <> out_exe ->
  fs w !! stub_exe = Some stub ->
  fs w !! payload_pyc = Some payload ->
  Z.of_nat (length payload) < 2 ^ 64 ->
  exists w' : world,
    append_payload_to_stub v stub_exe payload_pyc out_exe w = (Done, w')
    /\ fs w' !! out_exe
       = Some (stub ++ payload ++ encode (Z.of_nat (length payload)))
    /\ (forall q : string, q <> out_exe -> fs w' !! q = fs w !! q)
    /\ serene w'.
Proof.
  intros Hser Hso Hpo Hstub Hpay Hsize.
  unfold append_payload_to_stub.
  rewrite (fopen_rb_good stub_exe stub) by (auto using serene_now).
  rewrite (fopen_rb_good payload_pyc payload)
    by (auto using serene_now, serene_tick).
  rewrite fopen_wb_good by (auto using serene_now, serene_tick).
  set (w3 := set_fs (<[out_exe := []]> (fs (tick (tick w)))) (tick (tick (tick w)))).
  assert (Hser3 : serene w3) by (subst w3; auto using serene_set_fs, serene_tick).
  assert (Hstub3 : fs w3 !! stub_exe = Some stub)
    by (subst w3; cbn [fs set_fs tick]; now rewrite lookup_insert_ne by congruence).
  assert (Hpay3 : fs w3 !! payload_pyc = Some payload)
    by (subst w3; cbn [fs set_fs tick]; now rewrite lookup_insert_ne by congruence).
  assert (Hout3 : fs w3 !! out_exe = Some [])
    by (subst w3; cbn [fs set_fs tick]; apply lookup_insert_eq).
  destruct (copy_loop_good (rest_of (Stream stub_exe 0) w3) (Stream stub_exe 0)
              (Stream out_exe 0) 0 w3 stub [] Hser3) as (w4 & E4 & Hser4 & Hfs4);
    try assumption.
  { unfold rest_of. cbn [f_path f_pos]. rewrite (contents_of _ _ _ Hstub3). lia. }
  { numerals. lia. }
  rewrite E4. cbn [f_path f_pos drop app] in Hfs4.
  assert (Hpay4 : fs w4 !! payload_pyc = Some payload)
    by (rewrite Hfs4; now rewrite lookup_insert_ne by congruence).
  assert (Hout4 : fs w4 !! out_exe = Some stub)
    by (rewrite Hfs4; apply lookup_insert_eq).
  destruct (copy_loop_good (rest_of (Stream payload_pyc 0) w4)
              (Stream payload_pyc 0) (Stream out_exe 0) 0 w4 payload stub Hser4)
    as (w5 & E5 & Hser5 & Hfs5); try assumption.
  { unfold rest_of. cbn [f_path f_pos]. rewrite (contents_of _ _ _ Hpay4). lia. }
  { numerals. lia. }
  cbn [f_path f_pos drop] in E5, Hfs5. rewrite E5.
  assert (Hout5 : fs w5 !! out_exe = Some (stub ++ payload))
    by (rewrite Hfs5; apply lookup_insert_eq).
  rewrite fwrite_good by (now apply serene_now).
  change (length FOOTER_MAGIC =? FOOTER_MAGIC_LEN)%nat with true. cbn [negb].
  unfold write_u64_le.
  rewrite fwrite_good
    by (apply serene_now; now apply serene_set_fs, serene_tick).
  cbn [snd f_path]. autorewrite with world. rewrite (contents_of _ _ _ Hout5).
  cbn [fs set_fs tick]. rewrite lookup_insert_eq. cbn [default].
  rewrite insert_insert_eq.
  eexists. split; [reflexivity|].
  assert (Hcount : u64 (0 + Z.of_nat (length payload)) = Z.of_nat (length payload))
    by (numerals; apply u64_small; lia).
  split; [|split].
  - destruct v; rewrite ?fs_chmod; cbn [fs set_fs tick];
      change (drop 0 payload) with payload;
      rewrite lookup_insert_eq, Hcount; unfold encode, id;
      now rewrite <- !app_assoc.
  - intros q Hq.
    destruct v; rewrite ?fs_chmod; cbn [fs set_fs tick];
      rewrite lookup_insert_ne by congruence;
      rewrite Hfs5, lookup_insert_ne by congruence;
      rewrite Hfs4, lookup_insert_ne by congruence;
      subst w3; cbn [fs set_fs tick];
      now rewrite lookup_insert_ne by congruence.
  - destruct v; [apply serene_chmod|];
      auto using serene_set_fs, serene_tick.
Qed.

Section Builder_facts.

Variable py : runtime.


End Builder_facts.

(** The build of the samples when nothing fails. *)
Lemma sample_build :
  let r := Toy.main Linux build_out (quiet sources (Some app)) in
  fst r = Returns Done /\ fs (snd r) !! "out" = Some built.
Proof. vm_compute. split; reflexivity. Qed.

(** C2, at a build whose last library write fails.  The thirteenth library
    call of the build is the [fwrite] of [write_u64_le]; it writes nothing
    here.
    [write_u64_le] drops the value of that call, so the build goes on,
    reports success and returns 0, and the output is the stub, the payload
    and the five bytes of the magic: the size field is missing. *)
Theorem unchecked_size_write :
  let r := Toy.main Linux build_out (faulty 12 0 sources (Some app)) in
  fst r = Returns Done
  /\ exit_status (fst r) = Some 0
  /\ stderr (snd r) = []
  /\ last (stdout (snd r)) = Some "[+] Built out successfully"
  /\ fs (snd r) !! "out" = Some (stub_bytes ++ payload_bytes ++ FOOTER_MAGIC)
  /\ fs (snd r) !! "out"
     <> Some (stub_bytes ++ payload_bytes
              ++ encode (Z.of_nat (length payload_bytes))).
Proof. vm_compute. repeat split; discriminate. Qed.

(** The same with a read that fails: the copy loops take an [fread] that
    delivers nothing for the end of the file, so a stub that cannot be read
    is left out of an output that is reported as built. *)
Lemma unread_stub_dropped :
  let r := Toy.main Linux build_out (faulty 5 0 sources (Some app)) in
  fst r = Returns Done
  /\ fs (snd r) !! "out"
     = Some (payload_bytes ++ encode (Z.of_nat (length payload_bytes))).
Proof. vm_compute. split; reflexivity. Qed.

(* --------------------------------------------------------------------- *)
(** ** The launcher when no library call fails *)

Lemma env_fwrite (buf : list byte) (f : FILE) (w : world) :
  env_of (snd (fwrite buf f w)) = env_of w.
Proof. reflexivity. Qed.





(** Building the samples and launching the output: the script is run, the
    launcher returns 0, and the scratch file is gone. *)
Lemma sample_round_trip :
  let b := Toy.main Linux build_out (quiet sources (Some app)) in
  let w := quiet (fs (snd b)) (Some "out") in
  let r := Toy.main Linux ["out"] w in
  fst b = Returns Done
  /\ fst r = Returns Done
  /\ reads (snd r) = [("out", 48, 5); ("out", 53, 8); ("out", 23, 25)]%nat
  /\ fs (snd r) !! scratch_path w = None
  /\ stderr (snd r) = [].
Proof. vm_compute. repeat split. Qed.

(* ===================================================================== *)
(** * Further properties of the code *)

(* --------------------------------------------------------------------- *)
(** ** The size field *)

Lemma byte_testbit_high (b : byte) (n : Z) :
  8 <= n -> Z.testbit (Z_of_byte b) n = false.
Proof.
  intros Hn. pose proof (Z_of_byte_range b) as Hr.
  rewrite <- (Z.mod_small (Z_of_byte b) (2 ^ 8)) by (change (2 ^ 8) with 256; lia).
  apply Z.mod_pow2_bits_high. lia.
Qed.

(** Bit [m] of the term that [read_u64_le] ors in for the byte at index [j]. *)
Lemma read_term_testbit (b : byte) (j : nat) (m : Z) :
  (j < 8)%nat -> 0 <= m ->
  Z.testbit (u64 (Z.shiftl (Z_of_byte b) (8 * Z.of_nat j))) m
  = (8 * Z.of_nat j <=? m) && (m <? 8 * Z.of_nat j + 8)
    && Z.testbit (Z_of_byte b) (m - 8 * Z.of_nat j).
Proof.
  intros Hj Hm. unfold u64.
  destruct (Z.leb_spec (8 * Z.of_nat j) m) as [Hle|Hgt].
  - destruct (Z.ltb_spec m (8 * Z.of_nat j + 8)) as [Hin|Hout]; cbn [andb].
    + rewrite Z.mod_pow2_bits_low by lia. now rewrite Z.shiftl_spec by lia.
    + destruct (Z.ltb_spec m 64).
      * rewrite Z.mod_pow2_bits_low by lia. rewrite Z.shiftl_spec by lia.
        apply byte_testbit_high. lia.
      * apply Z.mod_pow2_bits_high. lia.
  - cbn [andb]. destruct (Z.ltb_spec m 64).
    + rewrite Z.mod_pow2_bits_low by lia. apply Z.shiftl_spec_low. lia.
    + apply Z.mod_pow2_bits_high. lia.
Qed.

(** The byte that [write_u64_le] stores at index [i], from the bits of [V]. *)
Lemma write_byte_from_bits (V : Z) (i : nat) (b : byte) :
  (forall n, 0 <= n < 8 ->
     Z.testbit V (n + 8 * Z.of_nat i) = Z.testbit (Z_of_byte b) n) ->
  byte_of_Z (Z.land (Z.shiftr V (8 * Z.of_nat i)) 255) = b.
Proof.
  intros Hbits.
  transitivity (byte_of_Z (Z_of_byte b)); [|apply byte_of_Z_of_byte]. f_equal.
  apply Z.bits_inj'. intros n Hn.
  change 255 with (Z.ones 8). rewrite Z.land_spec, Z.shiftr_spec by lia.
  destruct (Z.ltb_spec n 8) as [Hlow|Hhigh].
  - rewrite Z.ones_spec_low by lia. rewrite andb_true_r. apply Hbits. lia.
  - rewrite Z.ones_spec_high by lia. rewrite andb_false_r.
    symmetry. apply byte_testbit_high. lia.
Qed.

(** X1. Reading is the inverse of writing in the other direction too: the
    eight bytes that [write_u64_le] makes of the number that [read_u64_le]
    makes of any eight bytes are those eight bytes, so two different size
    fields never read as the same number. *)
Theorem u64_le_buf_of_buf (buf : list byte) :
  length buf = 8%nat -> u64_le_buf (u64_of_buf buf) = buf.
Proof.
  intros Hlen.
  do 8 (destruct buf as [|? buf]; [discriminate Hlen|]).
  destruct buf; [|discriminate Hlen]. clear Hlen.
  unfold u64_le_buf, u64_of_buf. cbn [seq map fold_left nth].
  repeat (apply (f_equal2 cons); [
    apply write_byte_from_bits; intros n Hn;
    rewrite !Z.lor_spec, Z.bits_0, orb_false_l;
    rewrite !read_term_testbit by lia;
    cbn [Z.of_nat Pos.of_succ_nat Pos.succ Z.mul Pos.mul Pos.add Z.add];
    settle_comparisons; cbn [andb orb];
    rewrite ?orb_false_r; f_equal; lia |]).
  reflexivity.
Qed.

Lemma u64_le_buf_of_buf_witness :
  u64_le_buf (u64_of_buf (repeat Byte.xff 8)) = repeat Byte.xff 8.
Proof. apply (u64_le_buf_of_buf (repeat Byte.xff 8)). reflexivity. Defined.

(** X2. The number that [read_u64_le] makes of eight bytes is their
    little-endian value: the first byte counts once, the next 256 times, and
    so on; it is below [2^64]. *)
Theorem u64_of_buf_value (b0 b1 b2 b3 b4 b5 b6 b7 : byte) :
  u64_of_buf [b0; b1; b2; b3; b4; b5; b6; b7]
  = Z_of_byte b0 + 256 * (Z_of_byte b1 + 256 * (Z_of_byte b2 + 256 *
      (Z_of_byte b3 + 256 * (Z_of_byte b4 + 256 * (Z_of_byte b5 + 256 *
         (Z_of_byte b6 + 256 * Z_of_byte b7))))))
  /\ 0 <= u64_of_buf [b0; b1; b2; b3; b4; b5; b6; b7] < 2 ^ 64.
Proof.
  pose proof (Z_of_byte_range b0). pose proof (Z_of_byte_range b1).
  pose proof (Z_of_byte_range b2). pose proof (Z_of_byte_range b3).
  pose proof (Z_of_byte_range b4). pose proof (Z_of_byte_range b5).
  pose proof (Z_of_byte_range b6). pose proof (Z_of_byte_range b7).
  set (S := Z_of_byte b0 + 256 * (Z_of_byte b1 + 256 * (Z_of_byte b2 + 256 *
      (Z_of_byte b3 + 256 * (Z_of_byte b4 + 256 * (Z_of_byte b5 + 256 *
         (Z_of_byte b6 + 256 * Z_of_byte b7))))))).
  assert (HS : 0 <= S < 2 ^ 64) by (subst S; numerals; lia).
  assert (Hbuf : u64_le_buf S = [b0; b1; b2; b3; b4; b5; b6; b7]).
  { unfold u64_le_buf. cbn [seq map].
    cbn [Z.of_nat Pos.of_succ_nat Pos.succ Z.mul Pos.mul Pos.add Z.add].
    change 255 with (Z.ones 8).
    repeat (apply (f_equal2 cons); [
      match goal with
      | |- _ = ?b =>
          transitivity (byte_of_Z (Z_of_byte b)); [|apply byte_of_Z_of_byte]
      end;
      f_equal; rewrite Z.land_ones, Z.shiftr_div_pow2 by lia;
      subst S;
      match goal with
      | |- context [2 ^ ?k] =>
          let v := eval cbv in (2 ^ k) in change (2 ^ k) with v
      end;
      change (2 ^ 8) with 256;
      Z.div_mod_to_equations; lia |]).
    reflexivity. }
  rewrite <- Hbuf, u64_of_buf_le_buf. numerals.
  rewrite u64_small by lia. split; [reflexivity | lia].
Qed.

(** X3. The size field survives a file: what [write_u64_le] appends to a file
    is read back by [read_u64_le], from where the field starts, as the
    number written, cut to 64 bits. *)
Theorem size_field_through_file (v : Z) (f : FILE) (w : world)
    (old : list byte) :
  fs w !! f_path f = Some old ->
  calm 2 w ->
  contents (f_path f) (write_u64_le f v w) = old ++ u64_le_buf v
  /\ fst (fst (read_u64_le (Stream (f_path f) (length old))
                           (write_u64_le f v w))) = u64 v.
Proof.
  intros Hold Hcalm. unfold write_u64_le.
  rewrite fwrite_good by (now apply (calm_now 1)).
  cbn [snd]. autorewrite with world. rewrite (contents_of _ _ _ Hold).
  rewrite lookup_insert_eq. cbn [default]. split; [reflexivity|].
  rewrite read_u64_le_good.
  - cbn [fst f_path f_pos]. autorewrite with world.
    rewrite lookup_insert_eq. cbn [default]. unfold id.
    rewrite drop_app_length. rewrite take_ge by (rewrite u64_le_buf_length; lia).
    apply u64_of_buf_le_buf.
  - apply Hcalm. cbn. lia.
  - cbn [f_path f_pos]. autorewrite with world.
    rewrite lookup_insert_eq. cbn [default]. unfold id.
    rewrite length_app, u64_le_buf_length. lia.
Qed.

Lemma size_field_through_file_witness :
  fst (fst (read_u64_le (Stream app (length stub_bytes))
              (write_u64_le (Stream app 0) 258 (installed stub_bytes))))
  = 258.
Proof.
  exact (proj2 (size_field_through_file 258 (Stream app 0) (installed stub_bytes)
                  stub_bytes ltac:(evaluate) (calm_quiet _ _ _))).
Defined.

(* --------------------------------------------------------------------- *)
(** ** What a library call does to the world, whatever its outcome *)

Lemma fopen_rb_snd (p : string) (w : world) : snd (fopen_rb p w) = tick w.
Proof. unfold fopen_rb, call. repeat case_match; reflexivity. Qed.

Lemma fopen_rb_fst (p : string) (w : world) (f : FILE) :
  fst (fopen_rb p w) = Some f -> f = Stream p 0.
Proof. unfold fopen_rb, call. repeat case_match; cbn; intros; simplify_eq; auto. Qed.

Lemma fseek_end_snd (f : FILE) (w : world) : snd (fseek_end f w) = tick w.
Proof. unfold fseek_end, call. repeat case_match; reflexivity. Qed.

Lemma fseek_end_fst (f f' : FILE) (w : world) :
  fst (fseek_end f w) = Some f' ->
  f' = Stream (f_path f) (length (contents (f_path f) w)).
Proof. unfold fseek_end, call. repeat case_match; cbn; intros; simplify_eq; auto. Qed.

Lemma fseek_set_snd (f : FILE) (off : Z) (w : world) :
  snd (fseek_set f off w) = tick w.
Proof. unfold fseek_set, call. repeat case_match; reflexivity. Qed.

Lemma fseek_set_fst (f f' : FILE) (off : Z) (w : world) :
  fst (fseek_set f off w) = Some f' ->
  0 <= off /\ f' = Stream (f_path f) (Z.to_nat off).
Proof.
  unfold fseek_set, call. repeat case_match; cbn; intros; simplify_eq.
  split; [lia | reflexivity].
Qed.

Lemma fread_shape (n : nat) (f : FILE) (w : world) :
  fread n f w
  = (fst (fst (fread n f w)),
     Stream (f_path f) (f_pos f + length (fst (fst (fread n f w)))),
     log_read (f_path f) (f_pos f) (length (fst (fst (fread n f w)))) (tick w)).
Proof. reflexivity. Qed.

Lemma take_length_take {A : Type} (a : nat) (l : list A) :
  take (length (take a l)) l = take a l.
Proof.
  rewrite length_take.
  destruct (Nat.le_ge_cases a (length l)) as [H|H].
  - now rewrite Nat.min_l.
  - rewrite Nat.min_r by exact H. now rewrite !take_ge by lia.
Qed.

(** Whatever [fread] delivers is the start of what the file holds at the
    position of the stream. *)
Lemma fread_prefix (n : nat) (f : FILE) (w : world) :
  fst (fst (fread n f w))
  = take (length (fst (fst (fread n f w))))
         (drop (f_pos f) (contents (f_path f) w))
  /\ (length (fst (fst (fread n f w))) <= n)%nat.
Proof.
  unfold fread, call. cbn [fst].
  change (contents (f_path f) (tick w)) with (contents (f_path f) w).
  set (l := drop (f_pos f) (contents (f_path f) w)).
  destruct (faults w (clock w)) as [|k].
  - split; [now rewrite take_length_take | rewrite length_take; lia].
  - rewrite take_take. split; [now rewrite take_length_take|].
    rewrite !length_take. lia.
Qed.

Lemma fread_full (n : nat) (f : FILE) (w : world) :
  length (fst (fst (fread n f w))) = n ->
  fst (fst (fread n f w)) = take n (drop (f_pos f) (contents (f_path f) w)).
Proof.
  intros H. destruct (fread_prefix n f w) as [E _]. now rewrite H in E.
Qed.

Lemma fwrite_snd (buf : list byte) (f : FILE) (w : world) :
  exists done : list byte,
    snd (fwrite buf f w)
    = set_fs (<[f_path f := contents (f_path f) w ++ done]> (fs w)) (tick w)
    /\ fst (fwrite buf f w) = length done
    /\ (length done <= length buf)%nat
    /\ (length done = length buf -> done = buf).
Proof.
  unfold fwrite, call. cbn [fst snd].
  destruct (faults w (clock w)) as [|k].
  - exists buf. repeat split; auto.
  - eexists. split; [reflexivity|]. split; [reflexivity|].
    rewrite length_take. split; [lia|]. intros H.
    apply take_ge. lia.
Qed.

(* --------------------------------------------------------------------- *)
(** ** Files that the library calls leave alone *)

Lemma same_files_refl (keep : list string) (w : world) : same_files_but keep w w.
Proof. intros q _. reflexivity. Qed.

Lemma same_files_trans (keep : list string) (w1 w2 w3 : world) :
  same_files_but keep w1 w2 -> same_files_but keep w2 w3 ->
  same_files_but keep w1 w3.
Proof. intros H12 H23 q Hq. rewrite (H23 q Hq). apply (H12 q Hq). Qed.

Lemma same_files_fs (keep : list string) (w w' : world) :
  fs w' = fs w -> same_files_but keep w w'.
Proof. intros H q _. now rewrite H. Qed.

Lemma same_files_insert (keep : list string) (p : string) (c : list byte)
    (w w' : world) :
  p ∈ keep -> fs w' = <[p := c]> (fs w) -> same_files_but keep w w'.
Proof.
  intros Hp H q Hq. rewrite H. apply lookup_insert_ne. intros ->. now apply Hq.
Qed.

Lemma same_files_call_ops (keep : list string) (w : world) :
  same_files_but keep w (tick w).
Proof. now apply same_files_fs. Qed.

Lemma same_files_fopen_wb (keep : list string) (p : string) (w : world) :
  p ∈ keep -> same_files_but keep w (snd (fopen_wb p w)).
Proof.
  intros Hp. unfold fopen_wb, call. destruct (faults w (clock w)); cbn [snd].
  - now apply (same_files_insert keep p []).
  - now apply same_files_fs.
Qed.

Lemma same_files_fwrite (keep : list string) (buf : list byte) (f : FILE)
    (w : world) :
  f_path f ∈ keep -> same_files_but keep w (snd (fwrite buf f w)).
Proof.
  intros Hp. destruct (fwrite_snd buf f w) as (done & -> & _).
  now apply (same_files_insert keep (f_path f) (contents (f_path f) w ++ done)).
Qed.



Lemma same_files_extract_loop (keep : list string) (fuel : nat) :
  forall (f fp : FILE) (remaining : Z) (w : world),
    f_path fp ∈ keep ->
    same_files_but keep w (extract_loop fuel f fp remaining w).
Proof.
  induction fuel as [|fuel IH]; intros f fp remaining w Hp; cbn [extract_loop].
  - apply same_files_refl.
  - destruct (remaining <=? 0); [apply same_files_refl|].
    rewrite fread_shape.
    destruct (length _ =? 0)%nat; [now apply same_files_fs|].
    match goal with
    | |- context [fwrite ?b fp ?w1] =>
        pose proof (same_files_fwrite keep b fp w1 Hp) as Hw;
        destruct (fwrite b fp w1) as [n w2]
    end.
    cbn [snd] in Hw.
    eapply same_files_trans; [|apply IH; exact Hp].
    eapply same_files_trans; [|exact Hw]. now apply same_files_fs.
Qed.


(* --------------------------------------------------------------------- *)
(** ** The launcher under every outcome of the library calls *)

Lemma fopen_wb_fst (p : string) (w : world) (f : FILE) :
  fst (fopen_wb p w) = Some f -> f = Stream p 0.
Proof. unfold fopen_wb, call. repeat case_match; cbn; intros; simplify_eq; auto. Qed.

Lemma fopen_wb_contents (p : string) (w : world) (f : FILE) :
  fst (fopen_wb p w) = Some f -> contents p (snd (fopen_wb p w)) = [].
Proof.
  unfold fopen_wb, call. destruct (faults w (clock w)); cbn; [|discriminate].
  intros _. unfold contents. cbn [fs set_fs tick]. now rewrite lookup_insert_eq.
Qed.

Lemma fopen_wb_none (p : string) (w : world) :
  fst (fopen_wb p w) = None -> fs (snd (fopen_wb p w)) = fs w.
Proof. unfold fopen_wb, call. destruct (faults w (clock w)); cbn; [discriminate|auto]. Qed.

Lemma u64_of_buf_range (buf : list byte) : 0 <= u64_of_buf buf < 2 ^ 64.
Proof.
  assert (E : u64_of_buf buf = u64 (u64_of_buf buf)).
  { apply Z.bits_inj'. intros n Hn. unfold u64 at 1.
    destruct (Z.ltb_spec n 64) as [Hlt|Hge].
    - now rewrite Z.mod_pow2_bits_low by lia.
    - rewrite Z.mod_pow2_bits_high by lia.
      unfold u64_of_buf. cbn [seq fold_left].
      rewrite !Z.lor_spec, Z.bits_0, orb_false_l.
      rewrite !read_term_testbit by lia.
      cbn [Z.of_nat Pos.of_succ_nat Pos.succ Z.mul Pos.mul Pos.add Z.add].
      settle_comparisons. reflexivity. }
  rewrite E. unfold u64. apply Z.mod_pos_bound. lia.
Qed.

(** The extraction loop never puts more than [remaining] bytes into the
    scratch file. *)
Lemma extract_loop_bound (fuel : nat) :
  forall (f fp : FILE) (remaining : Z) (w : world),
    0 <= remaining < 2 ^ 64 ->
    (length (contents (f_path fp) (extract_loop fuel f fp remaining w))
     <= length (contents (f_path fp) w) + Z.to_nat remaining)%nat.
Proof.
  induction fuel as [|fuel IH]; intros f fp remaining w Hrem;
    cbn [extract_loop]; [lia|].
  destruct (Z.leb_spec remaining 0); [lia|].
  rewrite fread_shape.
  destruct (fread_prefix (Z.to_nat (Z.min remaining 4096)) f w) as [_ Hle].
  set (buf := fst (fst (fread (Z.to_nat (Z.min remaining 4096)) f w))) in *.
  destruct (length buf =? 0)%nat; [autorewrite with world; lia|].
  match goal with
  | |- context [fwrite buf fp ?w1] =>
      destruct (fwrite_snd buf fp w1) as (done & Hw & _ & Hdone & _);
      destruct (fwrite buf fp w1) as [n w2]
  end.
  cbn [snd] in Hw. subst w2.
  assert (Hnext : u64 (remaining - Z.of_nat (length buf))
                  = remaining - Z.of_nat (length buf))
    by (numerals; apply u64_small; lia).
  rewrite Hnext.
  etransitivity; [apply IH; numerals; lia|].
  autorewrite with world. rewrite lookup_insert_eq. cbn [default]. unfold id.
  rewrite length_app. lia.
Qed.

(** Opens the next library call of the goal: its world is written out, and
    what is known of its value is recorded. *)
Ltac open_call :=
  match goal with
  | |- context [fopen_rb ?p ?w] =>
      let E := fresh "E" in let F := fresh "F" in
      let f := fresh "f" in let w1 := fresh "w" in
      pose proof (fopen_rb_snd p w) as E; pose proof (fopen_rb_fst p w) as F;
      revert E F; destruct (fopen_rb p w) as [[f|] w1]; intros E F;
      cbn [fst snd] in E, F; subst w1;
      [specialize (F _ eq_refl); subst f | clear F]
  | |- context [fseek_end ?g ?w] =>
      let E := fresh "E" in let F := fresh "F" in
      let f := fresh "f" in let w1 := fresh "w" in
      pose proof (fseek_end_snd g w) as E;
      pose proof (fun f' => fseek_end_fst g f' w) as F;
      revert E F; destruct (fseek_end g w) as [[f|] w1]; intros E F;
      cbn [fst snd] in E, F; subst w1;
      [specialize (F _ eq_refl); subst f | clear F]
  | |- context [fseek_set ?g ?o ?w] =>
      let E := fresh "E" in let F := fresh "F" in
      let f := fresh "f" in let w1 := fresh "w" in
      pose proof (fseek_set_snd g o w) as E;
      pose proof (fun f' => fseek_set_fst g f' o w) as F;
      revert E F; destruct (fseek_set g o w) as [[f|] w1]; intros E F;
      cbn [fst snd] in E, F; subst w1;
      [destruct (F _ eq_refl) as [? ?]; subst f; clear F | clear F]
  end.

Lemma in_single (p : string) : p ∈ [p].
Proof. constructor. Qed.

Lemma stderr_fwrite (buf : list byte) (f : FILE) (w : world) :
  stderr (snd (fwrite buf f w)) = stderr w.
Proof. reflexivity. Qed.

Lemma stderr_eprint (line : string) (w : world) :
  stderr (eprint line w) = stderr w ++ [line].
Proof. reflexivity. Qed.

Lemma stderr_remove (p : string) (w : world) : stderr (remove p w) = stderr w.
Proof. unfold remove, call. destruct (faults w (clock w)); reflexivity. Qed.

Lemma stderr_extract_loop (fuel : nat) :
  forall (f fp : FILE) (remaining : Z) (w : world),
    stderr (extract_loop fuel f fp remaining w) = stderr w.
Proof.
  induction fuel as [|fuel IH]; intros f fp remaining w; cbn [extract_loop];
    [reflexivity|].
  destruct (remaining <=? 0); [reflexivity|].
  rewrite fread_shape.
  destruct (length _ =? 0)%nat; [reflexivity|].
  match goal with
  | |- context [fwrite ?b fp ?w1] =>
      pose proof (stderr_fwrite b fp w1) as Hw;
      destruct (fwrite b fp w1) as [n w2]; cbn [snd] in Hw
  end.
  rewrite IH, Hw. reflexivity.
Qed.

Lemma modes_remove (p : string) (w : world) : modes (remove p w) = modes w.
Proof. unfold remove, call. destruct (faults w (clock w)); reflexivity. Qed.

Lemma modes_extract_loop (fuel : nat) :
  forall (f fp : FILE) (remaining : Z) (w : world),
    modes (extract_loop fuel f fp remaining w) = modes w.
Proof.
  induction fuel as [|fuel IH]; intros f fp remaining w; cbn [extract_loop];
    [reflexivity|].
  destruct (remaining <=? 0); [reflexivity|].
  rewrite fread_shape.
  destruct (length _ =? 0)%nat; [reflexivity|].
  match goal with
  | |- context [fwrite ?b fp ?w1] =>
      assert (Hw : modes (snd (fwrite b fp w1)) = modes w) by reflexivity;
      destruct (fwrite b fp w1) as [n w2]; cbn [snd] in Hw
  end.
  now rewrite IH.
Qed.

Lemma remove_contents_le (p : string) (w : world) :
  (length (contents p (remove p w)) <= length (contents p w))%nat.
Proof.
  unfold remove, call. destruct (faults w (clock w)).
  - unfold contents at 1. cbn [fs set_fs tick]. rewrite lookup_delete_eq.
    cbn. lia.
  - reflexivity.
Qed.

(** Closes the case of a launcher that returns early, having written at
    most one line. *)
Ltac early_return :=
  split; [reflexivity|]; split; [reflexivity|];
  first [ exists []; split; [cbn; lia | now rewrite app_nil_r]
        | eexists [_]; split; [cbn; lia | reflexivity] ].

(** The first part of the launcher, whatever the library calls do.  When it
    returns, no file and no mode has changed, and it has written at most one
    line on the standard error stream.  When it hands over to the runtime,
    only the scratch file has changed. *)
Lemma extract_frame (v : variant) (w : world) :
  match extract_payload v w with
  | inl (st, w') =>
      fs w' = fs w /\ modes w' = modes w
      /\ exists lines : list string,
           (length lines <= 1)%nat /\ stderr w' = stderr w ++ lines
  | inr (t, w0) =>
      t = scratch_path w /\ same_files_but [t] w w0
      /\ modes w0 = modes w /\ stderr w0 = stderr w
  end.
Proof.
  unfold extract_payload.
  destruct (get_self_path w) as [p|]; [|early_return].
  open_call; [|early_return].
  open_call; [|early_return].
  destruct (_ <? _); [early_return|].
  open_call; [|early_return].
  rewrite fread_shape.
  destruct (negb _); [early_return|].
  destruct (negb _); [early_return|].
  unfold read_u64_le. rewrite fread_shape.
  match goal with
  | |- context [if negb ?c then (0, ?a, ?b) else (?s, ?a, ?b)] =>
      replace (if negb c then (0, a, b) else (s, a, b))
        with (if negb c then 0 else s, a, b) by (destruct c; reflexivity);
      generalize (if negb c then 0 else s)
  end.
  intros size.
  destruct (size =? 0); [early_return|].
  destruct (_ <? 0); [early_return|].
  open_call; [|early_return].
  match goal with
  | |- context [fopen_wb (scratch_path ?w5) ?w5] =>
      change (scratch_path w5) with (scratch_path w);
      pose proof (same_files_fopen_wb [scratch_path w] (scratch_path w) w5
                    (in_single _)) as Hopen;
      pose proof (fopen_wb_fst (scratch_path w) w5) as Hfp;
      assert (Hkeep : modes (snd (fopen_wb (scratch_path w) w5)) = modes w
                      /\ stderr (snd (fopen_wb (scratch_path w) w5)) = stderr w
                      /\ (fst (fopen_wb (scratch_path w) w5) = None ->
                          fs (snd (fopen_wb (scratch_path w) w5)) = fs w))
        by (unfold fopen_wb, call; destruct (faults _ _); cbn;
            repeat split; auto; discriminate);
      revert Hopen Hfp Hkeep;
      destruct (fopen_wb (scratch_path w) w5) as [[fp|] w6];
      intros Hopen Hfp (Hmodes & Herr & Hnone); cbn [fst snd] in *
  end.
  2:{ split; [now apply Hnone|]. split; [exact Hmodes|].
      eexists [_]. split; [cbn; lia|]. cbn [stderr eprint]. now rewrite Herr. }
  specialize (Hfp _ eq_refl). subst fp.
  split; [reflexivity|].
  match goal with
  | |- context [extract_loop ?fuel ?f ?fp ?n w6] =>
      pose proof (same_files_extract_loop [scratch_path w] fuel f fp n w6
                    (in_single _)) as Hloop;
      rewrite (modes_extract_loop fuel f fp n w6);
      rewrite (stderr_extract_loop fuel f fp n w6)
  end.
  split; [|split; assumption].
  eapply same_files_trans; [|exact Hloop].
  eapply same_files_trans; [|exact Hopen]. now apply same_files_fs.
Qed.

(** How far the first part of the launcher gets on a self binary that
    exists, whatever the library calls do: it stops before the footer is
    read; or it turns the file down as too small or as carrying no payload;
    or the magic matches and it stops at the size field or at the scratch
    file; or it hands over to the runtime, with a scratch file that holds
    no more bytes than the size field says. *)
Lemma extract_cases (v : variant) (w : world) (p : string) (data : list byte) :
  get_self_path w = Some p ->
  fs w !! p = Some data ->
  Z.of_nat (length data) < 2 ^ 63 ->
  (exists (e : failure) (w' : world),
     extract_payload v w = inl (Failed e, w')
     /\ ((e = OpenSelf \/ e = SeekEnd \/ e = SeekFooter \/ e = ReadMagic)
         \/ (e = TooSmall /\ (length data < 13)%nat)
         \/ (e = NoPayload /\ (13 <= length data)%nat
             /\ take 5 (footer_of data) <> FOOTER_MAGIC)
         \/ (e = ZeroSize /\ (13 <= length data)%nat
             /\ take 5 (footer_of data) = FOOTER_MAGIC)
         \/ ((e = BadStart \/ e = SeekPayload \/ e = TmpCreate)
             /\ (13 <= length data)%nat
             /\ take 5 (footer_of data) = FOOTER_MAGIC
             /\ snd (decode (footer_of data)) <> 0)))
  \/ (exists w0 : world,
        extract_payload v w = inr (scratch_path w, w0)
        /\ (13 <= length data)%nat
        /\ take 5 (footer_of data) = FOOTER_MAGIC
        /\ snd (decode (footer_of data)) <> 0
        /\ (length (contents (scratch_path w) w0)
            <= Z.to_nat (snd (decode (footer_of data))))%nat).
Proof.
  intros Hself Hfile Hrep.
  unfold extract_payload. rewrite Hself.
  open_call; [|left; eexists _, _; split; [reflexivity|tauto]].
  open_call; [|left; eexists _, _; split; [reflexivity|tauto]].
  cbn [f_path f_pos].
  change (contents p (tick w)) with (contents p w).
  rewrite (contents_of _ _ _ Hfile).
  unfold ftell, FOOTER_LEN, FOOTER_MAGIC_LEN. cbn [f_pos].
  change (5 + 8)%nat with 13%nat. numerals.
  rewrite long_small by lia.
  destruct (Z.ltb_spec (Z.of_nat (length data)) (Z.of_nat 13)) as [Hsmall|Hbig].
  { left; eexists _, _; split; [reflexivity|].
    right; left. split; [reflexivity | lia]. }
  assert (H13 : (13 <= length data)%nat) by lia.
  open_call; [|left; eexists _, _; split; [reflexivity|tauto]].
  replace (Z.to_nat (Z.of_nat (length data) - Z.of_nat 13))
    with (length data - 13)%nat by lia.
  rewrite fread_shape.
  match goal with
  | |- context [fread 5 ?f ?w0] =>
      pose proof (fread_full 5 f w0) as Hfull;
      set (magic := fst (fst (fread 5 f w0))) in *
  end.
  cbn [f_path f_pos] in Hfull.
  change (contents p (tick (tick (tick w)))) with (contents p w) in Hfull.
  rewrite (contents_of _ _ _ Hfile) in Hfull.
  destruct (Nat.eqb_spec (length magic) 5) as [Hfive|Hshort]; cbn [negb];
    [|left; eexists _, _; split; [reflexivity|tauto]].
  specialize (Hfull Hfive).
  assert (Hfooter : magic = take 5 (footer_of data))
    by (rewrite Hfull; reflexivity).
  destruct (memcmp_eq magic FOOTER_MAGIC) eqn:Hcmp; cbn [negb].
  2:{ left; eexists _, _; split; [reflexivity|].
      right; right; left. split; [reflexivity|]. split; [exact H13|].
      rewrite <- Hfooter. intros Heq. apply memcmp_eq_true in Heq. congruence. }
  apply memcmp_eq_true in Hcmp.
  assert (Hmagic : take 5 (footer_of data) = FOOTER_MAGIC) by congruence.
  unfold read_u64_le. rewrite fread_shape.
  match goal with
  | |- context [fread 8 ?f ?w0] =>
      pose proof (fread_full 8 f w0) as Hsize;
      set (field := fst (fst (fread 8 f w0))) in *
  end.
  cbn [f_path f_pos] in Hsize.
  match type of Hsize with
  | context [contents p ?w0] =>
      change (contents p w0) with (contents p w) in Hsize
  end.
  rewrite (contents_of _ _ _ Hfile), Hfive in Hsize.
  destruct (Nat.eqb_spec (length field) 8) as [Height|Hcut]; cbn [negb].
  2:{ left; eexists _, _; split; [reflexivity|].
      right; right; right; left. auto. }
  specialize (Hsize Height).
  assert (Hdec : u64_of_buf field = snd (decode (footer_of data))).
  { rewrite decode_footer_of by exact H13.
    unfold footer_of, FOOTER_LEN in Hmagic.
    change (5 + 8)%nat with 13%nat in Hmagic. rewrite Hmagic.
    rewrite (proj2 (memcmp_eq_true _ _) eq_refl). cbn [snd]. now rewrite Hsize. }
  rewrite Hdec.
  pose proof (u64_of_buf_range field) as Hrange. rewrite Hdec in Hrange.
  set (size := snd (decode (footer_of data))) in *.
  destruct (Z.eqb_spec size 0) as [Hzero|Hnonzero].
  { left; eexists _, _; split; [reflexivity|].
    right; right; right; left. auto. }
  destruct (_ <? 0).
  { left; eexists _, _; split; [reflexivity|].
    right; right; right; right. auto 6. }
  open_call.
  2:{ left; eexists _, _; split; [reflexivity|].
      right; right; right; right. auto 6. }
  match goal with
  | |- context [fopen_wb (scratch_path ?w5) ?w5] =>
      change (scratch_path w5) with (scratch_path w);
      pose proof (fopen_wb_fst (scratch_path w) w5) as Hfp;
      pose proof (fopen_wb_contents (scratch_path w) w5) as Hempty;
      revert Hfp Hempty;
      destruct (fopen_wb (scratch_path w) w5) as [[fp|] w6];
      intros Hfp Hempty; cbn [fst snd] in Hfp, Hempty
  end.
  2:{ left; eexists _, _; split; [reflexivity|].
      right; right; right; right. auto 6. }
  right.
  specialize (Hfp _ eq_refl). specialize (Hempty _ eq_refl). subst fp.
  eexists. split; [reflexivity|].
  split; [exact H13|]. split; [exact Hmagic|]. split; [exact Hnonzero|].
  match goal with
  | |- context [extract_loop ?fuel ?f ?fp size w6] =>
      pose proof (extract_loop_bound fuel f fp size w6 Hrange) as Hbound
  end.
  cbn [f_path] in Hbound. rewrite Hempty in Hbound. exact Hbound.
Qed.


Section Launcher_under_faults.

Variable py : runtime.

Abbreviation launch := (run_appended_payload py).

(** What the second part of the launcher preserves: any relation between
    worlds that the runtime preserves and that holds whenever files and
    modes are the same.  The launcher adds one thing of its own, the
    [remove] of the scratch file. *)
Section Execute_preserves.

Variable R : world -> world -> Prop.
Hypothesis R_same :
  forall w w' : world, fs w' = fs w -> modes w' = modes w -> R w w'.
Hypothesis R_trans : forall w1 w2 w3 : world, R w1 w2 -> R w2 w3 -> R w1 w3.
Hypothesis R_exec :
  forall (c : code_obj py) (w : world), R w (snd (exec py c w)).
Hypothesis R_text :
  forall (t : string) (w : world), R w (snd (other_text py t w)).
Hypothesis R_finalize : forall w : world, R w (Py_FinalizeEx py w).
Hypothesis R_module :
  forall w : world, R w (snd (PyImport_ExecCodeModule py w)).

Lemma load_and_exec_preserves (k : nat) (data : list byte) (w : world) :
  R w (snd (load_and_exec py k data w)).
Proof.
  unfold load_and_exec. destruct (marshal_loads py _); [apply R_exec|].
  now apply R_same.
Qed.

Lemma try_offsets_preserves (data : list byte) (w : world) :
  R w (snd (try_offsets py data w)).
Proof.
  unfold try_offsets.
  pose proof (load_and_exec_preserves 16 data w) as H16.
  destruct (load_and_exec py 16 data w) as [r16 w1]. cbn [snd] in H16.
  destruct r16; try exact H16.
  pose proof (load_and_exec_preserves 12 data w1) as H12.
  destruct (load_and_exec py 12 data w1) as [r12 w2]. cbn [snd] in H12.
  assert (H2 : R w w2) by (eapply R_trans; eassumption).
  destruct r12; try exact H2;
    (eapply R_trans; [exact H2|]; apply load_and_exec_preserves).
Qed.

Lemma PyRun_preserves (tmpname : string) (w : world) :
  R w (snd (PyRun_SimpleString py tmpname w)).
Proof.
  unfold PyRun_SimpleString.
  assert (H : R w (snd (if well_quoted tmpname
                        then let '(o, w1) := call w in
                             match o, fs w1 !! tmpname with
                             | Good, Some data => try_offsets py data w1
                             | _, _ => (Raised, w1)
                             end
                        else other_text py (py_code_str tmpname) w))).
  { destruct (well_quoted tmpname); [|apply R_text].
    unfold call. destruct (faults w (clock w)); [|now apply R_same].
    destruct (fs (tick w) !! tmpname) as [data|]; [|now apply R_same].
    eapply R_trans; [|apply try_offsets_preserves]. now apply R_same. }
  destruct (if well_quoted tmpname then _ else _) as [r w1]. cbn [snd] in H.
  destruct r; cbn [snd]; try exact H.
  - eapply R_trans; [exact H|]. now apply R_same.
  - eapply R_trans; [exact H|]. now apply R_same.
  - eapply R_trans; [exact H|]. apply R_finalize.
Qed.

Lemma execute_preserves (v : variant) (tmpname : string) (w : world) :
  exists w1 : world,
    R w w1
    /\ (snd (execute_payload py v tmpname w) = w1
        \/ snd (execute_payload py v tmpname w) = remove tmpname w1).
Proof.
  unfold execute_payload. destruct v.
  - pose proof (PyRun_preserves tmpname w) as H.
    destruct (PyRun_SimpleString py tmpname w) as [[result| |] w1];
      cbn [snd] in H; [|eauto..].
    destruct (negb _); cbn zeta; cbn [snd];
      (eexists; split; [|right; reflexivity]).
    + eapply R_trans; [exact H|].
      eapply R_trans; [|apply R_finalize]. now apply R_same.
    + eapply R_trans; [exact H|]. apply R_finalize.
  - open_call.
    + pose proof (R_module (tick w)) as H.
      destruct (PyImport_ExecCodeModule py (tick w)) as [[[|]| |] w2];
        cbn [snd] in H; cbn zeta; cbn [snd];
        (eexists; split; [|left; reflexivity]);
        (assert (Hb : R w w2)
           by (eapply R_trans; [|exact H]; now apply R_same));
        try exact Hb.
      * eapply R_trans; [exact Hb|]. apply R_finalize.
      * eapply R_trans; [exact Hb|].
        apply (R_trans _ (PyErr_Print py w2)); [now apply R_same|].
        apply R_finalize.
    + cbn zeta. cbn [snd]. eexists. split; [|left; reflexivity].
      eapply R_trans; [|apply R_finalize]. now apply R_same.
Qed.

End Execute_preserves.

(** The second part of the launcher with a runtime that leaves alone the
    files outside [keep]. *)
Lemma execute_keeps (keep : list string) (v : variant) (tmpname : string)
    (w : world) :
  runtime_keeps py keep ->
  exists w1 : world,
    same_files_but keep w w1
    /\ (snd (execute_payload py v tmpname w) = w1
        \/ snd (execute_payload py v tmpname w) = remove tmpname w1).
Proof.
  intros (Hexec & Htext & Hfin & Hmod).
  apply execute_preserves; try assumption.
  - intros w1 w2 Hfs _. now apply same_files_fs.
  - apply same_files_trans.
Qed.


(** The statuses of the first part are none of those with which the
    launcher ends once it has started the runtime. *)
Lemma early_not_reached (e : failure) :
  e ∈ [SelfPath; OpenSelf; SeekEnd; TooSmall; SeekFooter; ReadMagic;
       NoPayload; ZeroSize; BadStart; SeekPayload; TmpCreate] ->
  ~ reached_extraction (Returns (Failed e)).
Proof.
  intros He Hr. unfold reached_extraction in Hr.
  destruct Hr as [H|[H|[H|[[c H]|H]]]]; try discriminate H;
    injection H as ->; apply list_elem_of_In in He; cbn in He;
    repeat (destruct He as [He|He]; [discriminate He|]); exact He.
Qed.

(** Takes a case of [extract_cases] apart. *)
Ltac failure_cases D :=
  destruct D as [[->|[->|[->| ->]]]
                |[[-> ?]
                 |[(-> & ? & ?)
                  |[(-> & ? & ?)
                   |([->|[->| ->]] & ? & ? & ?)]]]].

(** X5. A self binary that is shorter than a footer, or whose last thirteen
    bytes do not start with the magic, leaves no trace: whatever the library
    calls do, the launcher fails before it creates its scratch file, and
    every file is what it was. *)
Theorem absent_footer_leaves_no_trace (v : variant) (w : world) (p : string)
    (data : list byte) :
  get_self_path w = Some p ->
  fs w !! p = Some data ->
  Z.of_nat (length data) < 2 ^ 63 ->
  (length data < 13)%nat \/ take 5 (footer_of data) <> FOOTER_MAGIC ->
  fs (snd (launch v w)) = fs w
  /\ exists e : failure,
       fst (launch v w) = Returns (Failed e)
       /\ e ∈ [OpenSelf; SeekEnd; TooSmall; SeekFooter; ReadMagic; NoPayload].
Proof.
  intros Hself Hfile Hrep Hbad.
  pose proof (extract_frame v w) as F.
  unfold run_appended_payload.
  destruct (extract_cases v w p data Hself Hfile Hrep)
    as [(e & w' & E & D)|(w0 & E & H13 & Hmagic & _)].
  - rewrite E in F |- *. destruct F as (Hfs & _). cbn [fst snd].
    split; [exact Hfs|]. exists e. split; [reflexivity|].
    failure_cases D; try (destruct Hbad; (lia || contradiction));
      apply list_elem_of_In; cbn; tauto.
  - destruct Hbad; (lia || contradiction).
Qed.

(** X6. The verdicts of the launcher can be trusted, whatever the library
    calls do: it says "too small" only of a file shorter than thirteen
    bytes, "no payload" only of a file whose last thirteen bytes do not
    start with the magic, and it gets as far as the embedded code only on a
    file that ends in the magic and a size field that is not zero. *)
Theorem launcher_verdicts_sound (v : variant) (w : world) (p : string)
    (data : list byte) :
  get_self_path w = Some p ->
  fs w !! p = Some data ->
  Z.of_nat (length data) < 2 ^ 63 ->
  (fst (launch v w) = Returns (Failed TooSmall) -> (length data < 13)%nat)
  /\ (fst (launch v w) = Returns (Failed NoPayload) ->
      (13 <= length data)%nat /\ take 5 (footer_of data) <> FOOTER_MAGIC)
  /\ (reached_extraction (fst (launch v w)) ->
      (13 <= length data)%nat
      /\ fst (decode (footer_of data)) = true
      /\ snd (decode (footer_of data)) <> 0).
Proof.
  intros Hself Hfile Hrep.
  assert (Hvalid : (13 <= length data)%nat ->
            take 5 (footer_of data) = FOOTER_MAGIC ->
            fst (decode (footer_of data)) = true).
  { intros H13 Hmagic. rewrite decode_footer_of by exact H13.
    unfold footer_of, FOOTER_LEN in Hmagic.
    change (5 + 8)%nat with 13%nat in Hmagic. rewrite Hmagic.
    now rewrite (proj2 (memcmp_eq_true _ _) eq_refl). }
  unfold run_appended_payload.
  destruct (extract_cases v w p data Hself Hfile Hrep)
    as [(e & w' & E & D)|(w0 & E & H13 & Hmagic & Hsize & _)]; rewrite E.
  - cbn [fst]. split; [|split].
    + intros [= He]. failure_cases D; (congruence || assumption).
    + intros [= He]. failure_cases D; try congruence. now split.
    + intros Hr. exfalso. revert Hr. apply early_not_reached.
      failure_cases D; apply list_elem_of_In; cbn; tauto.
  - pose proof (execute_payload_reached py v (scratch_path w) w0) as Hr.
    assert (Hno : forall e : failure,
              e ∈ [SelfPath; OpenSelf; SeekEnd; TooSmall; SeekFooter;
                   ReadMagic; NoPayload; ZeroSize; BadStart; SeekPayload;
                   TmpCreate] ->
              fst (execute_payload py v (scratch_path w) w0)
              <> Returns (Failed e)).
    { intros e He Heq. rewrite Heq in Hr. now apply (early_not_reached e). }
    split; [|split].
    + intros H. exfalso. revert H. apply Hno.
      apply list_elem_of_In; cbn; tauto.
    + intros H. exfalso. revert H. apply Hno.
      apply list_elem_of_In; cbn; tauto.
    + intros _. auto.
Qed.

(** X7. The scratch file never holds more bytes than the size field of the
    footer says, whatever the library calls do.  When the runtime is
    started, the scratch file is at most [payload_size] bytes long; and with
    a runtime that leaves the scratch file alone it is so when the launcher
    ends, however it ends. *)
Theorem scratch_file_bounded (v : variant) (w : world) (p : string)
    (data : list byte) :
  get_self_path w = Some p ->
  fs w !! p = Some data ->
  Z.of_nat (length data) < 2 ^ 63 ->
  (forall (t : string) (w0 : world),
     extract_payload v w = inr (t, w0) ->
     (length (contents t w0) <= Z.to_nat (snd (decode (footer_of data))))%nat)
  /\ (forall keep : list string,
        runtime_keeps py keep ->
        scratch_path w ∉ keep ->
        reached_extraction (fst (launch v w)) ->
        (length (contents (scratch_path w) (snd (launch v w)))
         <= Z.to_nat (snd (decode (footer_of data))))%nat).
Proof.
  intros Hself Hfile Hrep.
  unfold run_appended_payload.
  destruct (extract_cases v w p data Hself Hfile Hrep)
    as [(e & w' & E & D)|(w0 & E & _ & _ & _ & Hbound)]; rewrite E.
  - split; [intros t w0 [=]|].
    intros keep _ _ Hr. exfalso. cbn [fst] in Hr. revert Hr.
    apply early_not_reached.
    failure_cases D; apply list_elem_of_In; cbn; tauto.
  - split; [intros t w1 [= <- <-]; exact Hbound|].
    intros keep Hkeeps Hout _.
    destruct (execute_keeps keep v (scratch_path w) w0 Hkeeps)
      as (w1 & H1 & Hend).
    assert (Hw1 : contents (scratch_path w) w1 = contents (scratch_path w) w0)
      by (unfold contents; now rewrite (H1 _ Hout)).
    destruct Hend as [-> | ->].
    + now rewrite Hw1.
    + etransitivity; [apply remove_contents_le|]. now rewrite Hw1.
Qed.

End Launcher_under_faults.

(** The stand-in runtime changes nothing in the world. *)
Lemma toy_keeps (keep : list string) : runtime_keeps Toy.py keep.
Proof.
  repeat split; intros; cbn [Toy.py exec other_text Py_FinalizeEx
                             PyImport_ExecCodeModule snd];
    try apply same_files_refl.
  unfold Toy.exec. repeat case_match; apply same_files_refl.
Qed.

Lemma toy_keeps_modes : runtime_keeps_modes Toy.py.
Proof.
  repeat split; intros; cbn [Toy.py exec other_text Py_FinalizeEx
                             PyImport_ExecCodeModule snd];
    try reflexivity.
  unfold Toy.exec. repeat case_match; reflexivity.
Qed.


Lemma absent_footer_leaves_no_trace_witness :
  fs (snd (Toy.run_appended_payload Linux
             (faulty 2 0 {[ app := flipped_magic ]} (Some app))))
  = fs (faulty 2 0 {[ app := flipped_magic ]} (Some app))
  /\ exists e : failure,
       fst (Toy.run_appended_payload Linux
              (faulty 2 0 {[ app := flipped_magic ]} (Some app)))
       = Returns (Failed e)
       /\ e ∈ [OpenSelf; SeekEnd; TooSmall; SeekFooter; ReadMagic; NoPayload].
Proof.
  assert (H1 : get_self_path (faulty 2 0 {[ app := flipped_magic ]} (Some app))
               = Some app) by evaluate.
  assert (H2 : fs (faulty 2 0 {[ app := flipped_magic ]} (Some app)) !! app
               = Some flipped_magic) by evaluate.
  assert (H3 : Z.of_nat (length flipped_magic) < 2 ^ 63) by evaluate.
  assert (H4 : take 5 (footer_of flipped_magic) <> FOOTER_MAGIC) by evaluate.
  exact (absent_footer_leaves_no_trace Toy.py Linux
           _ app flipped_magic H1 H2 H3 (or_intror H4)).
Defined.

Lemma launcher_verdicts_sound_witness :
  (13 <= length built)%nat
  /\ fst (decode (footer_of built)) = true
  /\ snd (decode (footer_of built)) <> 0.
Proof.
  assert (H1 : get_self_path (faulty 8 3 {[ app := built ]} (Some app))
               = Some app) by evaluate.
  assert (H2 : fs (faulty 8 3 {[ app := built ]} (Some app)) !! app
               = Some built) by evaluate.
  assert (H3 : Z.of_nat (length built) < 2 ^ 63) by evaluate.
  assert (H4 : reached_extraction
                 (fst (run_appended_payload Toy.py Portable
                         (faulty 8 3 {[ app := built ]} (Some app)))))
    by (vm_compute; auto 6).
  exact (proj2 (proj2
           (launcher_verdicts_sound Toy.py Portable
              _ app built H1 H2 H3)) H4).
Defined.

Lemma scratch_file_bounded_witness :
  (length (contents (scratch_path (faulty 8 3 {[ app := built ]} (Some app)))
             (snd (Toy.run_appended_payload Portable
                     (faulty 8 3 {[ app := built ]} (Some app)))))
   <= Z.to_nat (snd (decode (footer_of built))))%nat.
Proof.
  assert (H1 : get_self_path (faulty 8 3 {[ app := built ]} (Some app))
               = Some app) by evaluate.
  assert (H2 : fs (faulty 8 3 {[ app := built ]} (Some app)) !! app
               = Some built) by evaluate.
  assert (H3 : Z.of_nat (length built) < 2 ^ 63) by evaluate.
  assert (H4 : reached_extraction
                 (fst (run_appended_payload Toy.py Portable
                         (faulty 8 3 {[ app := built ]} (Some app)))))
    by (vm_compute; auto 6).
  assert (H5 : scratch_path (faulty 8 3 {[ app := built ]} (Some app)) ∉ [])
    by (apply not_elem_of_nil).
  exact (proj2 (scratch_file_bounded Toy.py Portable
                  _ app built H1 H2 H3) [] (toy_keeps []) H5 H4).
Defined.

(* --------------------------------------------------------------------- *)
(** *** The builder, whatever the library calls do *)




Section Builder_under_faults.

Variable py : runtime.

Abbreviation build := (builder_mode py).



End Builder_under_faults.


(* --------------------------------------------------------------------- *)
(** *** From the build to the launch *)

Section Round_trip.

Variable py : runtime.


End Round_trip.


(* --------------------------------------------------------------------- *)
(** *** What [main] returns and reports *)

Section Main_reports.

Variable py : runtime.


Lemma append_statuses (v : variant) (stub_exe payload_pyc out_exe : string)
    (w : world) :
  let st := fst (append_payload_to_stub v stub_exe payload_pyc out_exe w) in
  st = Done \/ st = Failed AppendFailed.
Proof.
  unfold append_payload_to_stub. repeat case_match; cbn; auto.
Qed.




(** X12. How [main] reports a launch.  Without [--build] as its first
    argument, [main] ends as [run_appended_payload] ends.  When the launcher
    returns 0, or the process ends inside the runtime, [main] adds nothing.
    When the launcher returns another code, [main] adds two lines to the
    standard error stream, the code that it is about to return and how to
    build, and changes nothing else.  Of its own, a launcher that returns
    before it starts the runtime has written at most one line, and a
    launcher that starts the runtime has written none before; what the
    runtime and the code that it runs write is theirs. *)
Theorem launch_reported_by_main (v : variant) (argv : list string) (w : world) :
  build_requested argv = false ->
  match run_appended_payload py v w with
  | (Returns Done, w') => main py v argv w = (Returns Done, w')
  | (Returns (Failed e), w') =>
      main py v argv w
      = (Returns (Failed e),
         eprints ["Bootloader: no embedded payload or run failed (code "
                  +:+ pretty (exit_code e) +:+ ")";
                  "Usage to build: " +:+ usage_text v (nth 0 argv "")] w')
  | (Exits code, w') => main py v argv w = (Exits code, w')
  | (Never, w') => main py v argv w = (Never, w')
  end
  /\ match extract_payload v w with
     | inl (_, w') =>
         exists lines : list string,
           (length lines <= 1)%nat /\ stderr w' = stderr w ++ lines
     | inr (_, w0) => stderr w0 = stderr w
     end.
Proof.
  intros Hmode. split.
  - unfold main. unfold build_requested in Hmode. rewrite Hmode.
    destruct (run_appended_payload py v w) as [[[|e]|code|] w'];
      try reflexivity.
    cbn [status_code].
    replace (negb (exit_code e =? 0)) with true by (now destruct e).
    unfold eprints, eprint. cbn. now rewrite <- app_assoc.
  - pose proof (extract_frame v w) as H.
    destruct (extract_payload v w) as [[st w']|[t w0]].
    + now destruct H as (_ & _ & H).
    + now destruct H as (_ & _ & _ & H).
Qed.


End Main_reports.

Lemma launch_reported_by_main_witness :
  match run_appended_payload Toy.py Linux (installed flipped_magic) with
  | (Returns Done, w') =>
      main Toy.py Linux [app] (installed flipped_magic) = (Returns Done, w')
  | (Returns (Failed e), w') =>
      main Toy.py Linux [app] (installed flipped_magic)
      = (Returns (Failed e),
         eprints ["Bootloader: no embedded payload or run failed (code "
                  +:+ pretty (exit_code e) +:+ ")";
                  "Usage to build: " +:+ usage_text Linux (nth 0 [app] "")] w')
  | (Exits code, w') =>
      main Toy.py Linux [app] (installed flipped_magic) = (Exits code, w')
  | (Never, w') =>
      main Toy.py Linux [app] (installed flipped_magic) = (Never, w')
  end
  /\ match extract_payload Linux (installed flipped_magic) with
     | inl (_, w') =>
         exists lines : list string,
           (length lines <= 1)%nat
           /\ stderr w' = stderr (installed flipped_magic) ++ lines
     | inr (_, w0) => stderr w0 = stderr (installed flipped_magic)
     end.
Proof.
  assert (H : build_requested [app] = false) by evaluate.
  exact (launch_reported_by_main Toy.py Linux [app] (installed flipped_magic) H).
Defined.

(* --------------------------------------------------------------------- *)
(** *** File modes *)

Lemma modes_copy_loop (fuel : nat) :
  forall (f_in f_out : FILE) (count : Z) (w : world),
    modes (snd (copy_loop fuel f_in f_out count w)) = modes w.
Proof.
  induction fuel as [|fuel IH]; intros f_in f_out count w; cbn [copy_loop];
    [reflexivity|].
  rewrite fread_shape.
  destruct (length _ =? 0)%nat; [reflexivity|].
  match goal with
  | |- context [fwrite ?b f_out ?w1] =>
      assert (Hw : modes (snd (fwrite b f_out w1)) = modes w) by reflexivity;
      destruct (fwrite b f_out w1) as [n w2]; cbn [snd] in Hw
  end.
  destruct (negb _); [exact Hw|]. now rewrite IH.
Qed.

(** [append_payload_to_stub] of [pycclinux.c] is that of [bootandbuild.c],
    followed by [chmod] when it returns 0. *)
Lemma append_linux_is_chmod (stub_exe payload_pyc out_exe : string) (w : world) :
  append_payload_to_stub Linux stub_exe payload_pyc out_exe w
  = match append_payload_to_stub Portable stub_exe payload_pyc out_exe w with
    | (Done, w') => (Done, chmod out_exe 493 w')
    | (Failed e, w') => (Failed e, w')
    end.
Proof.
  unfold append_payload_to_stub. repeat case_match; simplify_eq; reflexivity.
Qed.

Lemma append_portable_modes (stub_exe payload_pyc out_exe : string) (w : world) :
  modes (snd (append_payload_to_stub Portable stub_exe payload_pyc out_exe w))
  = modes w.
Proof.
  unfold append_payload_to_stub.
  open_call; [|reflexivity].
  open_call; [|reflexivity].
  unfold fopen_wb, call. destruct (faults _ _); [|reflexivity].
  match goal with
  | |- context [copy_loop ?fuel ?a ?b 0 ?w3] =>
      pose proof (modes_copy_loop fuel a b 0 w3) as Hc1;
      destruct (copy_loop fuel a b 0 w3) as [[c1|] w4];
      cbn [snd modes set_fs tick] in Hc1
  end; [|exact Hc1].
  match goal with
  | |- context [copy_loop ?fuel ?a ?b 0 w4] =>
      pose proof (modes_copy_loop fuel a b 0 w4) as Hc2;
      destruct (copy_loop fuel a b 0 w4) as [[c2|] w5]; cbn [snd] in Hc2
  end; [|now rewrite <- Hc1].
  match goal with
  | |- context [fwrite FOOTER_MAGIC ?f w5] =>
      assert (Hm : modes (snd (fwrite FOOTER_MAGIC f w5)) = modes w5)
        by reflexivity;
      destruct (fwrite FOOTER_MAGIC f w5) as [n w6]; cbn [snd] in Hm
  end.
  destruct (negb _); cbn [snd]; [cbn [modes eprint]; congruence|].
  unfold write_u64_le.
  match goal with
  | |- modes (snd (fwrite ?b ?f w6)) = _ =>
      change (modes (snd (fwrite b f w6))) with (modes w6)
  end.
  congruence.
Qed.

Lemma chmod_modes (p : string) (m : Z) (w : world) :
  modes (chmod p m w) = modes w \/ modes (chmod p m w) = <[p := m]> (modes w).
Proof. unfold chmod, call. repeat case_match; cbn; auto. Qed.

Section Modes.

Variable py : runtime.

(** The launcher changes no mode when the runtime changes none. *)
Lemma launch_modes (v : variant) (w : world) :
  runtime_keeps_modes py ->
  modes (snd (run_appended_payload py v w)) = modes w.
Proof.
  intros (Hexec & Htext & Hfin & Hmod).
  unfold run_appended_payload.
  pose proof (extract_frame v w) as H.
  destruct (extract_payload v w) as [[st w']|[t w0]].
  - now destruct H as (_ & H & _).
  - destruct H as (_ & _ & H & _).
    assert (Hx : exists w1 : world,
              modes w1 = modes w0
              /\ (snd (execute_payload py v t w0) = w1
                  \/ snd (execute_payload py v t w0) = remove t w1)).
    { apply (execute_preserves py (fun w1 w2 : world => modes w2 = modes w1));
        cbn beta; try assumption; intros; congruence. }
    destruct Hx as (w1 & H1 & [->| ->]).
    + congruence.
    + rewrite modes_remove. congruence.
Qed.

Lemma build_modes (v : variant) (script_path out_exe_path : string)
    (w : world) :
  let r := builder_mode py v script_path out_exe_path w in
  modes (snd r) = modes w
  \/ (v = Linux /\ fst r = Done
      /\ modes (snd r) = <[out_exe_path := 493]> (modes w)).
Proof.
  unfold builder_mode. fold (temp_pyc_path w).
  destruct (get_self_path w) as [p|]; [|now left].
  match goal with
  | |- context [build_pyc_with_python py ?s ?t ?w1] =>
      assert (Hc : modes (snd (build_pyc_with_python py s t w1))
                   = modes w)
        by (unfold build_pyc_with_python, call; repeat case_match; reflexivity);
      destruct (build_pyc_with_python py s t w1) as [[|e] w2];
      cbn [snd] in Hc
  end; [|now left].
  match goal with
  | |- context [append_payload_to_stub v p ?t out_exe_path ?w3] =>
      pose proof (append_portable_modes p t out_exe_path w3) as Hp;
      pose proof (append_linux_is_chmod p t out_exe_path w3) as Hl;
      cbn [modes print] in Hp
  end.
  destruct v.
  - rewrite Hl.
    destruct (append_payload_to_stub Portable _ _ _ _) as [[|e] w4];
      cbn [snd] in Hp; cbn zeta; cbn [fst snd].
    + destruct (chmod_modes out_exe_path 493 w4) as [Hm|Hm].
      * left. cbn [modes print]. rewrite modes_remove. congruence.
      * right. split; [reflexivity|]. split; [reflexivity|].
        cbn [modes print]. rewrite modes_remove. congruence.
    + left. rewrite modes_remove. cbn [modes eprint]. congruence.
  - destruct (append_payload_to_stub Portable _ _ _ _) as [[|e] w4];
      cbn [snd] in Hp; cbn zeta; cbn [fst snd]; left.
    + cbn [modes print]. rewrite modes_remove. congruence.
    + rewrite modes_remove. cbn [modes eprint]. congruence.
Qed.

(** X14. File modes.  The two programs change the mode of at most one file,
    whatever the library calls do: [pycclinux.c] sets to 0755 the mode of
    the output of a build that returns 0.  A build changes no other mode,
    and [bootandbuild.c] changes none; a launch changes none either, as far
    as the runtime and the code that it runs change none. *)
Theorem only_linux_build_sets_a_mode (v : variant) (argv : list string)
    (w : world) :
  build_requested argv = true \/ runtime_keeps_modes py ->
  let r := main py v argv w in
  modes (snd r) = modes w
  \/ (v = Linux /\ build_requested argv = true /\ fst r = Returns Done
      /\ modes (snd r) = <[nth 3 argv "" := 493]> (modes w)).
Proof.
  intros Hside. unfold main. fold (build_requested argv).
  destruct (build_requested argv).
  - destruct (_ <? 4)%nat; [now left|].
    pose proof (build_modes v (nth 2 argv "") (nth 3 argv "") w) as H.
    destruct (builder_mode py v (nth 2 argv "") (nth 3 argv "") w) as [st w'].
    cbn zeta in H |- *. cbn [fst snd] in H |- *.
    destruct H as [H|(Hv & Hst & Hm)]; [now left | right].
    subst st. auto.
  - left. destruct Hside as [Hside|Hside]; [discriminate|].
    pose proof (launch_modes v w Hside) as H.
    destruct (run_appended_payload py v w) as [[st|code|] w'];
      cbn [snd] in H |- *; try exact H.
    destruct (negb _); exact H.
Qed.

(** X15. The output of [pycclinux.c] is executable: when nothing disturbs
    the build, the mode of the output is 0755 afterwards. *)
Theorem linux_build_marks_output_executable (script_path out_exe_path : string)
    (w : world) (selfpath : string) (stub src pyc : list byte) :
  serene w ->
  get_self_path w = Some selfpath ->
  fs w !! selfpath = Some stub ->
  fs w !! script_path = Some src ->
  py_compile py src = Some pyc ->
  Z.of_nat (length pyc) < 2 ^ 64 ->
  selfpath <> out_exe_path ->
  temp_pyc_path w <> out_exe_path ->
  temp_pyc_path w <> selfpath ->
  modes (snd (builder_mode py Linux script_path out_exe_path w))
  !! out_exe_path = Some 493.
Proof.
  intros Hser Hself Hstub Hsrc Hpyc Hsize Hso Hto Hts.
  unfold builder_mode. rewrite Hself. fold (temp_pyc_path w).
  unfold build_pyc_with_python, call.
  cbn [faults clock print fs tick].
  rewrite (serene_now _ Hser), (Hser (S (clock w)) ltac:(lia)), Hsrc, Hpyc.
  rewrite append_linux_is_chmod.
  match goal with
  | |- context [append_payload_to_stub Portable selfpath ?t out_exe_path ?w2] =>
      destruct (append_undisturbed Portable selfpath t out_exe_path w2 stub pyc)
        as (w3 & E3 & Hout3 & _ & Hser3)
  end; try assumption.
  - apply serene_print, serene_set_fs, serene_tick, serene_tick, serene_print,
      Hser.
  - cbn [fs print set_fs tick]. now rewrite lookup_insert_ne by congruence.
  - cbn [fs print set_fs tick]. apply lookup_insert_eq.
  - rewrite E3. cbn [snd modes print]. rewrite modes_remove.
    unfold chmod, call. rewrite (serene_now _ Hser3).
    cbn [fs tick]. rewrite Hout3. cbn [modes set_modes].
    apply lookup_insert_eq.
Qed.

End Modes.

Lemma only_linux_build_sets_a_mode_witness :
  modes (snd (main Toy.py Linux [app] (installed built)))
  = modes (installed built)
  \/ (Linux = Linux /\ build_requested [app] = true
      /\ fst (main Toy.py Linux [app] (installed built)) = Returns Done
      /\ modes (snd (main Toy.py Linux [app] (installed built)))
         = <[nth 3 [app] "" := 493]> (modes (installed built))).
Proof.
  exact (only_linux_build_sets_a_mode Toy.py Linux [app] (installed built)
           (or_intror toy_keeps_modes)).
Defined.

Lemma linux_build_marks_output_executable_witness :
  modes (snd (builder_mode Toy.py Linux "s.py" "out"
                (quiet sources (Some app)))) !! "out" = Some 493.
Proof.
  assert (H1 : get_self_path (quiet sources (Some app)) = Some app) by evaluate.
  assert (H2 : fs (quiet sources (Some app)) !! app = Some stub_bytes)
    by evaluate.
  assert (H3 : fs (quiet sources (Some app)) !! "s.py" = Some script_bytes)
    by evaluate.
  assert (H4 : py_compile Toy.py script_bytes = Some payload_bytes) by evaluate.
  assert (H5 : Z.of_nat (length payload_bytes) < 2 ^ 64) by evaluate.
  assert (H6 : app <> "out") by evaluate.
  assert (H7 : temp_pyc_path (quiet sources (Some app)) <> "out") by evaluate.
  assert (H8 : temp_pyc_path (quiet sources (Some app)) <> app) by evaluate.
  exact (linux_build_marks_output_executable Toy.py "s.py" "out"
           (quiet sources (Some app)) app stub_bytes script_bytes payload_bytes
           (serene_quiet _ _) H1 H2 H3 H4 H5 H6 H7 H8).
Defined.

(* --------------------------------------------------------------------- *)
(** *** The loops end by themselves *)

Lemma contents_fwrite_other (buf : list byte) (f : FILE) (p : string)
    (w : world) :
  p <> f_path f -> contents p (snd (fwrite buf f w)) = contents p w.
Proof.
  intros Hp. unfold contents, fwrite, call. cbn [snd fs set_fs tick].
  now rewrite lookup_insert_ne by congruence.
Qed.

Lemma fread_nonempty_advances (n : nat) (f : FILE) (w : world) :
  length (fst (fst (fread n f w))) <> 0%nat ->
  (f_pos f + length (fst (fst (fread n f w)))
   <= length (contents (f_path f) w))%nat.
Proof.
  intros Hne. destruct (fread_prefix n f w) as [Hbuf _].
  set (buf := fst (fst (fread n f w))) in *.
  assert (H : (length buf <= length (drop (f_pos f) (contents (f_path f) w)))%nat).
  { rewrite Hbuf at 1. rewrite length_take. lia. }
  rewrite length_drop in H. lia.
Qed.

Lemma copy_loop_one_more (fuel : nat) :
  forall (f_in f_out : FILE) (count : Z) (w : world),
    f_path f_in <> f_path f_out ->
    (rest_of f_in w <= fuel)%nat ->
    copy_loop (S fuel) f_in f_out count w = copy_loop fuel f_in f_out count w.
Proof.
  induction fuel as [|fuel IH]; intros f_in f_out count w Hio Hfuel.
  { unfold rest_of in Hfuel. lia. }
  cbn [copy_loop]. rewrite fread_shape.
  pose proof (fread_nonempty_advances (Z.to_nat 8192) f_in w) as Hadv.
  set (buf := fst (fst (fread (Z.to_nat 8192) f_in w))) in *.
  destruct (Nat.eqb_spec (length buf) 0) as [|Hne]; [reflexivity|].
  specialize (Hadv Hne).
  set (w1 := log_read (f_path f_in) (f_pos f_in) (length buf) (tick w)).
  pose proof (contents_fwrite_other buf f_out (f_path f_in) w1 Hio) as Hsame.
  destruct (fwrite buf f_out w1) as [n w2]. cbn [snd] in Hsame.
  destruct (negb _); [reflexivity|].
  apply (IH (Stream (f_path f_in) (f_pos f_in + length buf))); [exact Hio|].
  unfold rest_of in *. cbn [f_path f_pos]. rewrite Hsame.
  change (contents (f_path f_in) w1) with (contents (f_path f_in) w). lia.
Qed.

Lemma extract_loop_one_more (fuel : nat) :
  forall (f fp : FILE) (remaining : Z) (w : world),
    f_path f <> f_path fp ->
    (rest_of f w <= fuel)%nat ->
    extract_loop (S fuel) f fp remaining w = extract_loop fuel f fp remaining w.
Proof.
  induction fuel as [|fuel IH]; intros f fp remaining w Hio Hfuel.
  { unfold rest_of in Hfuel. lia. }
  cbn [extract_loop].
  destruct (remaining <=? 0); [reflexivity|].
  rewrite fread_shape.
  pose proof (fread_nonempty_advances (Z.to_nat (Z.min remaining 4096)) f w)
    as Hadv.
  set (buf := fst (fst (fread (Z.to_nat (Z.min remaining 4096)) f w))) in *.
  destruct (Nat.eqb_spec (length buf) 0) as [|Hne]; [reflexivity|].
  specialize (Hadv Hne).
  set (w1 := log_read (f_path f) (f_pos f) (length buf) (tick w)).
  pose proof (contents_fwrite_other buf fp (f_path f) w1 Hio) as Hsame.
  destruct (fwrite buf fp w1) as [n w2]. cbn [snd] in Hsame.
  apply (IH (Stream (f_path f) (f_pos f + length buf))); [exact Hio|].
  unfold rest_of in *. cbn [f_path f_pos]. rewrite Hsame.
  change (contents (f_path f) w1) with (contents (f_path f) w). lia.
Qed.

(** X16. The two copy loops and the extraction loop end by themselves.
    Whatever the library calls do, a loop that reads one file and writes
    another runs its body at most once for each byte left of its input, and
    once more: allowing it more rounds than [rest_of] changes neither its
    value nor the world that it leaves. *)
Theorem loops_end_by_themselves (f_in f_out : FILE) (w : world) (fuel : nat) :
  f_path f_in <> f_path f_out ->
  (rest_of f_in w <= fuel)%nat ->
  (forall count : Z,
     copy_loop fuel f_in f_out count w
     = copy_loop (rest_of f_in w) f_in f_out count w)
  /\ (forall remaining : Z,
        extract_loop fuel f_in f_out remaining w
        = extract_loop (rest_of f_in w) f_in f_out remaining w).
Proof.
  intros Hio Hfuel.
  replace fuel with (rest_of f_in w + (fuel - rest_of f_in w))%nat by lia.
  generalize (fuel - rest_of f_in w)%nat. clear fuel Hfuel.
  intros d. induction d as [|d [IHc IHe]].
  - rewrite Nat.add_0_r. auto.
  - rewrite Nat.add_succ_r. split; intros x.
    + rewrite copy_loop_one_more by (auto; lia). apply IHc.
    + rewrite extract_loop_one_more by (auto; lia). apply IHe.
Qed.

Lemma loops_end_by_themselves_witness :
  copy_loop 1000 (Stream app 0) (Stream "out" 0) 0
    (quiet (<["out" := []]> sources) (Some app))
  = copy_loop (rest_of (Stream app 0)
                 (quiet (<["out" := []]> sources) (Some app)))
      (Stream app 0) (Stream "out" 0) 0
      (quiet (<["out" := []]> sources) (Some app)).
Proof.
  assert (H1 : f_path (Stream app 0) <> f_path (Stream "out" 0)) by evaluate.
  assert (H2 : (rest_of (Stream app 0)
                  (quiet (<["out" := []]> sources) (Some app)) <= 1000)%nat)
    by (vm_compute; lia).
  exact (proj1 (loops_end_by_themselves (Stream app 0) (Stream "out" 0)
                  (quiet (<["out" := []]> sources) (Some app)) 1000 H1 H2) 0).
Defined.

(* --------------------------------------------------------------------- *)
(** *** Names of the scratch files *)

Lemma substring_short (s : string) :
  forall n : nat,
    (String.length (String.substring 0 n s) < n)%nat ->
    String.substring 0 n s = s.
Proof.
  induction s as [|c s IH]; intros [|n] H; cbn in *; try reflexivity; try lia.
  f_equal. apply IH. lia.
Qed.

Lemma string_app_length (s t : string) :
  String.length (s +:+ t) = (String.length s + String.length t)%nat.
Proof.
  induction s as [|c s IH]; [reflexivity|].
  change (S (String.length (s +:+ t))
          = S (String.length s + String.length t)).
  now rewrite IH.
Qed.

Lemma string_app_inv_tail (t : string) :
  forall s1 s2 : string, s1 +:+ t = s2 +:+ t -> s1 = s2.
Proof.
  induction s1 as [|c s1 IH]; intros [|d s2] H.
  - reflexivity.
  - apply (f_equal String.length) in H. rewrite !string_app_length in H.
    cbn [String.length] in H. lia.
  - apply (f_equal String.length) in H. rewrite !string_app_length in H.
    cbn [String.length] in H. lia.
  - change (String c (s1 +:+ t) = String d (s2 +:+ t)) in H.
    injection H as -> H. f_equal. now apply IH.
Qed.

(** X17. Two launchers do not share a scratch file: with the same
    [TMPDIR] and different process ids, the names of their scratch files
    differ, as long as one of the names is shorter than the [PATH_MAX - 1]
    characters that [snprintf] keeps. *)
Theorem scratch_names_differ (w1 w2 : world) :
  TMPDIR w1 = TMPDIR w2 ->
  pid w1 <> pid w2 ->
  (String.length (scratch_path w1) < 4095)%nat ->
  scratch_path w1 <> scratch_path w2.
Proof.
  intros Htd Hpid Hfit Heq. apply Hpid.
  assert (Hfit2 : (String.length (scratch_path w2) < 4095)%nat)
    by (now rewrite <- Heq).
  unfold scratch_path, snprintf, PATH_MAX in *.
  change (Nat.pred 4096) with 4095%nat in *.
  rewrite (substring_short _ _ Hfit), (substring_short _ _ Hfit2) in Heq.
  unfold tmp_dir in Heq. rewrite Htd in Heq.
  apply (inj (String.app _)) in Heq.
  apply (inj (String.app _)) in Heq.
  apply string_app_inv_tail in Heq.
  now apply (inj pretty) in Heq.
Qed.

Lemma scratch_names_differ_witness :
  scratch_path (installed built)
  <> scratch_path (World {[ app := built ]} ∅ (Some app) None 4243
                     (fun _ => Good) 0 [] [] []).
Proof.
  assert (H1 : TMPDIR (installed built)
               = TMPDIR (World {[ app := built ]} ∅ (Some app) None 4243
                           (fun _ => Good) 0 [] [] [])) by reflexivity.
  assert (H2 : pid (installed built)
               <> pid (World {[ app := built ]} ∅ (Some app) None 4243
                         (fun _ => Good) 0 [] [] [])) by evaluate.
  assert (H3 : (String.length (scratch_path (installed built)) < 4095)%nat)
    by (vm_compute; lia).
  exact (scratch_names_differ _ _ H1 H2 H3).
Defined.

(* --------------------------------------------------------------------- *)
(** *** The intermediate file of a build *)

Lemma serene_later (w w' : world) :
  serene w -> faults w' = faults w -> (clock w <= clock w')%nat -> serene w'.
Proof. intros Hser Hf Hc i Hi. rewrite Hf. apply Hser. lia. Qed.

Lemma copy_loop_later (fuel : nat) :
  forall (f_in f_out : FILE) (count : Z) (w : world),
    faults (snd (copy_loop fuel f_in f_out count w)) = faults w
    /\ (clock w <= clock (snd (copy_loop fuel f_in f_out count w)))%nat.
Proof.
  induction fuel as [|fuel IH]; intros f_in f_out count w; cbn [copy_loop];
    [auto|].
  rewrite fread_shape.
  destruct (length _ =? 0)%nat; [cbn; auto|].
  match goal with
  | |- context [fwrite ?b f_out ?w1] =>
      assert (Hw : faults (snd (fwrite b f_out w1)) = faults w
                   /\ (clock w <= clock (snd (fwrite b f_out w1)))%nat)
        by (cbn; auto);
      destruct (fwrite b f_out w1) as [n w2]; cbn [snd] in Hw
  end.
  destruct (negb _); [exact Hw|].
  destruct Hw as [Hf Hc].
  match goal with
  | |- context [copy_loop fuel ?a ?b ?c w2] =>
      destruct (IH a b c w2) as [Hf' Hc']
  end.
  split; [congruence | lia].
Qed.

Lemma append_later (v : variant) (stub_exe payload_pyc out_exe : string)
    (w : world) :
  faults (snd (append_payload_to_stub v stub_exe payload_pyc out_exe w))
  = faults w
  /\ (clock w
      <= clock (snd (append_payload_to_stub v stub_exe payload_pyc out_exe w)))%nat.
Proof.
  assert (Hchmod : forall w' : world,
            faults w' = faults w /\ (clock w <= clock w')%nat ->
            faults (chmod out_exe 493 w') = faults w
            /\ (clock w <= clock (chmod out_exe 493 w'))%nat).
  { intros w' [Hf Hc]. unfold chmod, call.
    repeat case_match; cbn; split; (congruence || lia). }
  assert (Hp : faults (snd (append_payload_to_stub Portable stub_exe
                              payload_pyc out_exe w)) = faults w
               /\ (clock w
                   <= clock (snd (append_payload_to_stub Portable stub_exe
                                    payload_pyc out_exe w)))%nat).
  { unfold append_payload_to_stub.
    open_call; [|cbn; auto].
    open_call; [|cbn; auto].
    unfold fopen_wb, call. destruct (faults _ _); [|cbn; auto].
    match goal with
    | |- context [copy_loop ?fuel ?a ?b 0 ?w3] =>
        destruct (copy_loop_later fuel a b 0 w3) as [Hf1 Hc1];
        destruct (copy_loop fuel a b 0 w3) as [[c1|] w4];
        cbn [snd faults clock set_fs tick] in Hf1, Hc1
    end; [|cbn; split; [congruence | lia]].
    match goal with
    | |- context [copy_loop ?fuel ?a ?b 0 w4] =>
        destruct (copy_loop_later fuel a b 0 w4) as [Hf2 Hc2];
        destruct (copy_loop fuel a b 0 w4) as [[c2|] w5];
        cbn [snd] in Hf2, Hc2
    end; [|cbn; split; [congruence | lia]].
    match goal with
    | |- context [fwrite FOOTER_MAGIC ?f w5] =>
        assert (Hm : faults (snd (fwrite FOOTER_MAGIC f w5)) = faults w5
                     /\ clock (snd (fwrite FOOTER_MAGIC f w5)) = S (clock w5))
          by (cbn; auto);
        destruct (fwrite FOOTER_MAGIC f w5) as [n w6]; cbn [snd] in Hm
    end.
    destruct Hm as [Hf6 Hc6].
    destruct (negb _); cbn [snd]; [cbn; split; [congruence | lia]|].
    unfold write_u64_le. cbn. split; [congruence | lia]. }
  destruct v.
  - rewrite append_linux_is_chmod.
    destruct (append_payload_to_stub Portable _ _ _ _) as [[|e] w'];
      cbn [snd] in Hp |- *; [now apply Hchmod | exact Hp].
  - exact Hp.
Qed.

Section Build_cleanup.

Variable py : runtime.

(** X18. A build leaves no intermediate file behind.  When no library call
    fails, a build that got past the compilation of the script has removed
    its [.pyc] by the time it returns, whether it returns 0 or the failure
    of [append_payload_to_stub], and whatever the other files are. *)
Theorem build_removes_its_temp (v : variant)
    (script_path out_exe_path : string) (w : world) (selfpath : string)
    (src pyc : list byte) :
  serene w ->
  get_self_path w = Some selfpath ->
  fs w !! script_path = Some src ->
  py_compile py src = Some pyc ->
  fs (snd (builder_mode py v script_path out_exe_path w))
  !! temp_pyc_path w = None.
Proof.
  intros Hser Hself Hsrc Hpyc.
  unfold builder_mode. rewrite Hself. fold (temp_pyc_path w).
  unfold build_pyc_with_python, call. cbn [faults clock fs print tick].
  rewrite (serene_now _ Hser), (Hser (S (clock w)) ltac:(lia)), Hsrc, Hpyc.
  match goal with
  | |- context [append_payload_to_stub v selfpath ?t out_exe_path ?w2] =>
      destruct (append_later v selfpath t out_exe_path w2) as [Hf Hc];
      destruct (append_payload_to_stub v selfpath t out_exe_path w2)
        as [st w3]
  end.
  cbn [snd faults clock print set_fs tick] in Hf, Hc.
  assert (Hser3 : serene w3) by (apply (serene_later w); auto; lia).
  assert (Hgone : forall w' : world,
            faults w' = faults w3 -> clock w' = clock w3 ->
            fs (remove (temp_pyc_path w) w') !! temp_pyc_path w = None).
  { intros w' Hf' Hc'. unfold remove, call. rewrite Hf', Hc'.
    rewrite (serene_now _ Hser3). cbn [fs set_fs tick].
    apply lookup_delete_eq. }
  destruct st as [|e]; cbn [snd fs print]; now apply Hgone.
Qed.

End Build_cleanup.

Lemma build_removes_its_temp_witness :
  fs (snd (builder_mode Toy.py Portable "s.py" "out"
             (quiet {[ "s.py" := script_bytes ]} (Some app))))
  !! temp_pyc_path (quiet {[ "s.py" := script_bytes ]} (Some app)) = None.
Proof.
  assert (H1 : get_self_path (quiet {[ "s.py" := script_bytes ]} (Some app))
               = Some app) by evaluate.
  assert (H2 : fs (quiet {[ "s.py" := script_bytes ]} (Some app)) !! "s.py"
               = Some script_bytes) by evaluate.
  assert (H3 : py_compile Toy.py script_bytes = Some payload_bytes)
    by evaluate.
  exact (build_removes_its_temp Toy.py Portable "s.py" "out"
           (quiet {[ "s.py" := script_bytes ]} (Some app)) app script_bytes
           payload_bytes (serene_quiet _ _) H1 H2 H3).
Defined.

(* --------------------------------------------------------------------- *)
(** *** What a build reports *)

Lemma stdout_copy_loop (fuel : nat) :
  forall (f_in f_out : FILE) (count : Z) (w : world),
    stdout (snd (copy_loop fuel f_in f_out count w)) = stdout w.
Proof.
  induction fuel as [|fuel IH]; intros f_in f_out count w; cbn [copy_loop];
    [reflexivity|].
  rewrite fread_shape.
  destruct (length _ =? 0)%nat; [reflexivity|].
  match goal with
  | |- context [fwrite ?b f_out ?w1] =>
      assert (Hw : stdout (snd (fwrite b f_out w1)) = stdout w) by reflexivity;
      destruct (fwrite b f_out w1) as [n w2]; cbn [snd] in Hw
  end.
  destruct (negb _); [exact Hw|]. now rewrite IH.
Qed.

Lemma stdout_chmod (p : string) (m : Z) (w : world) :
  stdout (chmod p m w) = stdout w.
Proof. unfold chmod, call. repeat case_match; reflexivity. Qed.

Lemma stdout_remove (p : string) (w : world) : stdout (remove p w) = stdout w.
Proof. unfold remove, call. destruct (faults w (clock w)); reflexivity. Qed.

Lemma append_stdout (v : variant) (stub_exe payload_pyc out_exe : string)
    (w : world) :
  stdout (snd (append_payload_to_stub v stub_exe payload_pyc out_exe w))
  = stdout w.
Proof.
  assert (Hp : stdout (snd (append_payload_to_stub Portable stub_exe
                              payload_pyc out_exe w)) = stdout w).
  { unfold append_payload_to_stub.
    open_call; [|reflexivity].
    open_call; [|reflexivity].
    unfold fopen_wb, call. destruct (faults _ _); [|reflexivity].
    match goal with
    | |- context [copy_loop ?fuel ?a ?b 0 ?w3] =>
        pose proof (stdout_copy_loop fuel a b 0 w3) as Hc1;
        destruct (copy_loop fuel a b 0 w3) as [[c1|] w4];
        cbn [snd stdout set_fs tick] in Hc1
    end; [|exact Hc1].
    match goal with
    | |- context [copy_loop ?fuel ?a ?b 0 w4] =>
        pose proof (stdout_copy_loop fuel a b 0 w4) as Hc2;
        destruct (copy_loop fuel a b 0 w4) as [[c2|] w5]; cbn [snd] in Hc2
    end; [|now rewrite <- Hc1].
    match goal with
    | |- context [fwrite FOOTER_MAGIC ?f w5] =>
        assert (Hm : stdout (snd (fwrite FOOTER_MAGIC f w5)) = stdout w5)
          by reflexivity;
        destruct (fwrite FOOTER_MAGIC f w5) as [n w6]; cbn [snd] in Hm
    end.
    destruct (negb _); cbn [snd]; [cbn [stdout eprint]; congruence|].
    unfold write_u64_le.
    match goal with
    | |- stdout (snd (fwrite ?b ?f w6)) = _ =>
        change (stdout (snd (fwrite b f w6))) with (stdout w6)
    end.
    congruence. }
  destruct v; [|exact Hp].
  rewrite append_linux_is_chmod.
  destruct (append_payload_to_stub Portable _ _ _ _) as [[|e] w'];
    cbn [snd] in Hp |- *; [now rewrite stdout_chmod | exact Hp].
Qed.

Section Build_reports.

Variable py : runtime.

(** X19. What a build prints, whatever the library calls do.  The standard
    output receives a start of three lines, in this order: that the script
    is being compiled, that the payload is being appended, that the output
    was built.  The last of them is there exactly when [builder_mode]
    returns 0. *)
Theorem build_progress_lines (v : variant) (script_path out_exe_path : string)
    (w : world) :
  let r := builder_mode py v script_path out_exe_path w in
  exists k : nat,
    stdout (snd r)
    = stdout w
      ++ take k ["[*] Compiling " +:+ script_path +:+ " -> " +:+ temp_pyc_path w;
                 "[*] Appending payload to stub and creating " +:+ out_exe_path;
                 "[+] Built " +:+ out_exe_path +:+ " successfully"]
    /\ (k <= 3)%nat
    /\ (k = 3%nat <-> fst r = Done).
Proof.
  unfold builder_mode. fold (temp_pyc_path w).
  destruct (get_self_path w) as [p|].
  2:{ exists 0%nat. cbn [fst snd take stdout eprint]. rewrite app_nil_r.
      repeat split; (lia || discriminate). }
  match goal with
  | |- context [build_pyc_with_python py ?s ?t ?w1] =>
      assert (Hc : stdout (snd (build_pyc_with_python py s t w1))
                   = stdout w1)
        by (unfold build_pyc_with_python, call; repeat case_match; reflexivity);
      destruct (build_pyc_with_python py s t w1) as [[|e] w2];
      cbn [snd stdout print] in Hc
  end.
  2:{ exists 1%nat. cbn [fst snd take stdout eprint]. rewrite Hc.
      repeat split; (lia || discriminate). }
  match goal with
  | |- context [append_payload_to_stub v p ?t out_exe_path ?w3] =>
      pose proof (append_stdout v p t out_exe_path w3) as Ha;
      destruct (append_payload_to_stub v p t out_exe_path w3) as [[|e] w4];
      cbn [snd stdout print] in Ha
  end; cbn zeta; cbn [fst snd].
  - exists 3%nat. cbn [take stdout print]. rewrite stdout_remove, Ha, Hc.
    rewrite <- !app_assoc. repeat split; auto.
  - exists 2%nat. cbn [take]. rewrite stdout_remove. cbn [stdout eprint].
    rewrite Ha, Hc. rewrite <- !app_assoc.
    repeat split; (lia || discriminate).
Qed.

(** X20. The verdicts of a build, whatever the library calls do.
    [builder_mode] returns 2 exactly when the path of the running binary
    was found, the import of [py_compile] succeeded and the call of its
    [compile] did not: because the call itself failed, as it does when the
    [.pyc] cannot be written, or because the script is missing or is one
    that [py_compile] refuses.  And it returns 0 only when the path of the
    running binary was found, both calls succeeded, and the script is there
    and compiles. *)
Theorem build_verdicts_sound (v : variant) (script_path out_exe_path : string)
    (w : world) :
  let r := builder_mode py v script_path out_exe_path w in
  (status_code (fst r) = 2
   <-> is_Some (get_self_path w)
       /\ faults w (clock w) = Good
       /\ (faults w (S (clock w)) <> Good
           \/ forall src : list byte,
                fs w !! script_path = Some src -> py_compile py src = None))
  /\ (fst r = Done ->
      is_Some (get_self_path w)
      /\ faults w (clock w) = Good
      /\ faults w (S (clock w)) = Good
      /\ exists src pyc : list byte,
           fs w !! script_path = Some src /\ py_compile py src = Some pyc).
Proof.
  unfold builder_mode. fold (temp_pyc_path w).
  destruct (get_self_path w) as [p|].
  2:{ cbn. split; [|discriminate].
      split; [discriminate | intros ([? [=]] & _)]. }
  unfold build_pyc_with_python, call. cbn [faults clock fs print tick].
  destruct (faults w (clock w)) as [|k1].
  2:{ cbn. split; [|discriminate].
      split; [discriminate | intros (_ & [=] & _)]. }
  destruct (faults w (S (clock w))) as [|k2].
  2:{ cbn. split; [|discriminate].
      split; [|reflexivity]. intros _. split; [eauto|].
      split; [reflexivity|]. left. discriminate. }
  destruct (fs w !! script_path) as [src|] eqn:Hsrc.
  2:{ cbn. split; [|discriminate].
      split; [|reflexivity]. intros _. split; [eauto|].
      split; [reflexivity|]. right. discriminate. }
  destruct (py_compile py src) as [pyc|] eqn:Hpyc.
  2:{ cbn. split; [|discriminate].
      split; [|reflexivity]. intros _. split; [eauto|].
      split; [reflexivity|]. right. intros src' [= <-]. exact Hpyc. }
  match goal with
  | |- context [append_payload_to_stub v p ?t out_exe_path ?w3] =>
      pose proof (append_statuses v p t out_exe_path w3) as Ha;
      destruct (append_payload_to_stub v p t out_exe_path w3) as [st w4]
  end.
  assert (Hno : ~ (is_Some (Some p)
                   /\ Good = Good
                   /\ (Good <> Good
                       \/ forall src0 : list byte,
                            Some src = Some src0 -> py_compile py src0 = None))).
  { intros (_ & _ & [H|H]); [now apply H|].
    specialize (H src eq_refl). congruence. }
  cbn [fst] in Ha. destruct Ha as [-> | ->]; cbn zeta; cbn [fst snd].
  - split; [split; [cbn; discriminate | intros H; now destruct Hno]|].
    intros _. split; [eauto|]. split; [reflexivity|]. split; [reflexivity|].
    eauto.
  - split; [split; [cbn; discriminate | intros H; now destruct Hno]|].
    discriminate.
Qed.

End Build_reports.

Lemma build_verdicts_sound_witness :
  is_Some (get_self_path (quiet sources (Some app)))
  /\ faults (quiet sources (Some app)) (clock (quiet sources (Some app))) = Good
  /\ faults (quiet sources (Some app)) (S (clock (quiet sources (Some app))))
     = Good
  /\ exists src pyc : list byte,
       fs (quiet sources (Some app)) !! "s.py" = Some src
       /\ py_compile Toy.py src = Some pyc.
Proof.
  assert (H : fst (builder_mode Toy.py Linux "s.py" "out"
                     (quiet sources (Some app))) = Done) by evaluate.
  exact (proj2 (build_verdicts_sound Toy.py Linux "s.py" "out"
                  (quiet sources (Some app))) H).
Defined.
